(** * OpenAI plugin for Genkit: the GPT request/response translation layer

    A shallow embedding of [plugins/openai/src/gpt.ts]: the capability
    registry ([SUPPORTED_GPT_MODELS]), the request builder
    ([toOpenAiMessages], [toOpenAiRequestBody]), the response reducer
    ([fromOpenAiToolCall], [fromOpenAiChoice], [fromOpenAiChunkChoice]) and
    the runner that ties them to the vendor transport ([gptRunner]).

    JavaScript values are modelled as the code handles them: optional
    fields as [option], fields that may also hold [null] with a three-way
    type, truthiness written out, exceptions as an error monad,
    the request body as a finite map from keys to values. *)

From Stdlib Require Import String Ascii ZArith List Bool.
From stdpp Require Import base option list strings pretty gmap fin_maps.
Import ListNotations.

Local Open Scope string_scope.
Local Open Scope Z_scope.

(** ** JavaScript values *)

(** A field of type [string | null | undefined]. *)
Inductive MaybeString : Type :=
| Undefined
| Null
| Str (s : string).

(** Numbers are kept as exact decimals [mant * 10^expo]; the rounding of
    IEEE-754 doubles plays no role in this module, which only passes numbers
    through and tests them for truthiness. *)
Record Number : Type := { mant : Z; expo : Z }.

#[local] Unset Elimination Schemes.
Inductive JsValue : Type :=
| JsUndefined
| JsNull
| JsBool (b : bool)
| JsNumber (d : Number)
| JsString (s : string)
| JsArray (items : list JsValue)
| JsObject (props : list (string * JsValue)).
#[local] Set Elimination Schemes.

Definition string_truthy (s : string) : bool :=
  match s with EmptyString => false | String _ _ => true end.

Definition number_truthy (d : Number) : bool := negb (mant d =? 0).

(** [Boolean(x)] for [x : string | null | undefined]. *)
Definition truthy (m : MaybeString) : bool :=
  match m with
  | Str s => string_truthy s
  | Undefined | Null => false
  end.

(** [x || ''] *)
Definition or_empty (m : MaybeString) : string :=
  match m with
  | Str s => s
  | Undefined | Null => ""
  end.

(** An optional string field read where only truthiness matters:
    [a || b] returns [a] when it is a non-empty string. *)
Definition or_else (a : option string) (b : string) : string :=
  match a with
  | Some s => if string_truthy s then s else b
  | None => b
  end.

(** [x ?? ''] *)
Definition nullish_empty (a : option string) : string :=
  match a with Some s => s | None => "" end.

(** The value of a [string | null | undefined] field seen as [any]. *)
Definition to_value (m : MaybeString) : JsValue :=
  match m with
  | Undefined => JsUndefined
  | Null => JsNull
  | Str s => JsString s
  end.

(** [String(x)], the coercion [JSON.parse] applies to its argument. *)
Definition to_text (m : MaybeString) : string :=
  match m with
  | Undefined => "undefined"
  | Null => "null"
  | Str s => s
  end.

(** ** Exceptions *)

(** The module throws plain [Error]s that differ by their message; the
    runtime adds [SyntaxError] (from [JSON.parse]) and [TypeError] (a
    property read on [undefined]). *)
Inductive Exception : Type :=
| UnsupportedModel (modelName : string)
    (* `Unsupported model: ${modelName}` *)
| UnmappableRole (role : string)
    (* `role ${role} doesn't map to an OpenAI role.` *)
| UnsupportedPart
    (* `Unsupported genkit part fields encountered for current message role: ...` *)
| UnsupportedOutputFormat (format : string)
    (* `${response_format} format is not supported for GPT models currently` *)
| MalformedToolCall
    (* `Unexpected openAI chunk choice. tool_calls was provided but one or
       more tool_calls is missing.` *)
| SyntaxError
| TypeError.

Inductive Result (A : Type) : Type :=
| Ok (a : A)
| Throw (e : Exception).
Arguments Ok {A} a.
Arguments Throw {A} e.

Definition bind {A B : Type} (r : Result A) (k : A -> Result B) : Result B :=
  match r with
  | Ok a => k a
  | Throw e => Throw e
  end.

Declare Scope result_scope.
Delimit Scope result_scope with result.
Notation "x <- r ;; k" := (bind r (fun x => k))
  (at level 60, r at next level, right associativity, only parsing) : result_scope.
Local Open Scope result_scope.

(** [xs.map(f)] where [f] may throw: the first exception aborts the map. *)
Fixpoint map_result {A B : Type} (f : A -> Result B) (xs : list A) : Result (list B) :=
  match xs with
  | [] => Ok []
  | x :: xs' =>
      y <- f x ;;
      ys <- map_result f xs' ;;
      Ok (y :: ys)
  end.

(** ** The generic (Genkit) side of the data model *)

Record Media : Type := { url : string; contentType : option string }.

Record ToolRequest : Type :=
  { tr_name : option string;      (* [f.name!] may pass [undefined] through *)
    tr_ref : option string;
    tr_input : JsValue }.

Record ToolResponse : Type :=
  { ts_name : string;
    ts_ref : option string;
    ts_output : JsValue }.

(** A part is an object with optional fields; the code tests the fields
    one by one ([part.text], [part.media], [part.toolRequest], ...). *)
Record Part : Type :=
  { text : MaybeString;
    media : option Media;
    toolRequest : option ToolRequest;
    toolResponse : option ToolResponse;
    data : option JsValue }.

Definition noPart : Part :=
  {| text := Undefined; media := None; toolRequest := None;
     toolResponse := None; data := None |}.

(** [{ text: t }], [{ data: v }] and [{ toolRequest: r }] *)
Definition textPart (t : MaybeString) : Part :=
  {| text := t; media := None; toolRequest := None;
     toolResponse := None; data := None |}.
Definition dataPart (v : JsValue) : Part :=
  {| text := Undefined; media := None; toolRequest := None;
     toolResponse := None; data := Some v |}.
Definition toolRequestPart (r : ToolRequest) : Part :=
  {| text := Undefined; media := None; toolRequest := Some r;
     toolResponse := None; data := None |}.

(** [MessageData]; the role is the string the caller passes. *)
Record MessageData : Type := { role : string; content : list Part }.

(** The helpers of the host framework's [Message] class used here:
    [text()] is [content.map(part => part.text || '').join('')] and
    [toolResponseParts()] is [content.filter(part => !!part.toolResponse)]. *)
Definition Message_text (m : MessageData) : string :=
  String.concat "" (map (fun p => or_empty (text p)) (content m)).

Definition Message_toolResponseParts (m : MessageData) : list ToolResponse :=
  omap toolResponse (content m).

Record ToolDefinition : Type :=
  { td_name : string; td_inputSchema : JsValue }.

Inductive VisualDetailLevel : Type := detail_auto | detail_low | detail_high.

(** [OpenAiConfigSchema]: the common generation options and the vendor
    extensions; every field is optional. *)
Record OpenAiConfig : Type :=
  { version : option string;
    temperature : option Number;
    maxOutputTokens : option Number;
    topP : option Number;
    stopSequences : option (list string);
    frequencyPenalty : option Number;
    logitBias : option (list (string * Number));
    logProbs : option bool;
    presencePenalty : option Number;
    seed : option Number;
    topLogProbs : option Number;
    user : option string;
    visualDetailLevel : option VisualDetailLevel }.

(** [request.output.format], an enumeration in the host framework. *)
Inductive OutputFormat : Type := format_json | format_text | format_media.

Definition format_name (f : OutputFormat) : string :=
  match f with
  | format_json => "json"
  | format_text => "text"
  | format_media => "media"
  end.

Record OutputConfig : Type :=
  { format : option OutputFormat; schema : option JsValue }.

Record GenerateRequest : Type :=
  { messages : list MessageData;
    config : option OpenAiConfig;
    tools : option (list ToolDefinition);
    output : option OutputConfig;
    candidates : option Number }.

(** [request.config?.f] and [request.output?.format] *)
Definition config_field {A : Type} (f : OpenAiConfig -> option A)
    (request : GenerateRequest) : option A :=
  match config request with
  | Some c => f c
  | None => None
  end.

Definition output_format (request : GenerateRequest) : option OutputFormat :=
  match output request with
  | Some o => format o
  | None => None
  end.

(** The [finishReason] of a candidate. Besides the five reasons of the host
    framework, the field can come to hold [finish_member key]: the member
    of [Object.prototype] that the lookup [finishReasonMap[key]] returns
    when [key] is its name, which is no reason at all. *)
Inductive FinishReason : Type :=
| finish_stop | finish_length | finish_blocked | finish_other | finish_unknown
| finish_member (key : string).

Record CandidateData : Type :=
  { cd_index : Z;
    cd_finishReason : FinishReason;
    cd_message : MessageData;
    cd_custom : JsValue }.

(** ** The vendor (OpenAI) side of the data model *)

Inductive ChatCompletionContentPart : Type :=
| ContentText (t : string)
| ContentImageUrl (u : string) (detail : VisualDetailLevel).

Record ToolCallFunction : Type :=
  { fn_name : option string; fn_arguments : MaybeString }.

(** [ChatCompletionMessageToolCall | ChatCompletionChunk.Choice.Delta.ToolCall] *)
Record ToolCall : Type :=
  { tc_id : option string; tc_function : option ToolCallFunction }.

(** [ChatCompletionMessageParam], one constructor per shape pushed by
    [toOpenAiMessages]; the [role] field is the one of the constructor. *)
Inductive ChatCompletionMessageParam : Type :=
| UserParam (parts : list ChatCompletionContentPart)
| SystemParam (c : string)
| AssistantToolCallsParam (tool_calls : list ToolCall)
| AssistantParam (c : string)
| ToolParam (tool_call_id : string) (c : MaybeString).

Record ChatCompletionTool : Type :=
  { tool_name : string; tool_parameters : JsValue }.

(** [finish_reason] is the string the vendor sends, [None] when it is
    [null] or missing. These are the values the vendor documents. *)
Definition vendor_stop : string := "stop".
Definition vendor_length : string := "length".
Definition vendor_tool_calls : string := "tool_calls".
Definition vendor_content_filter : string := "content_filter".
Definition vendor_function_call : string := "function_call".

Record ChatCompletionMessage : Type :=
  { m_content : MaybeString; m_tool_calls : option (list ToolCall) }.

Record Choice : Type :=
  { c_index : Z;
    c_finish_reason : option string;
    c_message : ChatCompletionMessage }.

Record ChunkChoice : Type :=
  { k_index : Z;
    k_finish_reason : option string;
    k_delta : ChatCompletionMessage }.

(** ** Capability registry *)

Record ModelSupports : Type :=
  { multiturn : bool;
    supports_tools : bool;
    supports_media : bool;
    systemRole : bool;
    supports_output : option (list string) }.

Record ModelInfo : Type :=
  { versions : list string;
    label : string;
    supports : option ModelSupports }.

(** The object [modelRef] returns: the fields it was given. None of the
    descriptors below is given a [version]. *)
Record ModelReference : Type :=
  { name : string;
    info : ModelInfo;
    ref_version : option string }.

Definition MODELS_SUPPORTING_OPENAI_RESPONSE_FORMAT : list string :=
  [ "gpt-4o"; "gpt-4o-2024-05-13"; "gpt-4o-mini"; "gpt-4o-mini-2024-07-18";
    "gpt-4-turbo"; "gpt-4-turbo-2024-04-09"; "gpt-4-turbo-preview";
    "gpt-4-0125-preview"; "gpt-4-1106-preview"; "gpt-3.5-turbo-0125";
    "gpt-3.5-turbo"; "gpt-3.5-turbo-1106" ].

Definition modelRef (n : string) (vs : list string) (l : string)
    (tools_ media_ : bool) (out : list string) : ModelReference :=
  {| name := n;
     info := {| versions := vs; label := l;
                supports := Some {| multiturn := true; supports_tools := tools_;
                                    supports_media := media_; systemRole := true;
                                    supports_output := Some out |} |};
     ref_version := None |}.

Definition gpt4o : ModelReference :=
  modelRef "openai/gpt-4o" ["gpt-4o"; "gpt-4o-2024-05-13"]
    "OpenAI - GPT-4o" true true ["text"; "json"].

Definition gpt4oMini : ModelReference :=
  modelRef "openai/gpt-4o-mini" ["gpt-4o-mini"; "gpt-4o-mini-2024-07-18"]
    "OpenAI - GPT-4o mini" true true ["text"; "json"].

Definition gpt4Turbo : ModelReference :=
  modelRef "openai/gpt-4-turbo"
    ["gpt-4-turbo"; "gpt-4-turbo-2024-04-09"; "gpt-4-turbo-preview";
     "gpt-4-0125-preview"; "gpt-4-1106-preview"]
    "OpenAI - GPT-4 Turbo" true true ["text"; "json"].

Definition gpt4Vision : ModelReference :=
  modelRef "openai/gpt-4-vision"
    ["gpt-4-vision-preview"; "gpt-4-1106-vision-preview"]
    "OpenAI - GPT-4 Vision" false true ["text"].

Definition gpt4 : ModelReference :=
  modelRef "openai/gpt-4" ["gpt-4"; "gpt-4-0613"; "gpt-4-32k"; "gpt-4-32k-0613"]
    "OpenAI - GPT-4" true false ["text"].

Definition gpt35Turbo : ModelReference :=
  modelRef "openai/gpt-3.5-turbo"
    ["gpt-3.5-turbo-0125"; "gpt-3.5-turbo"; "gpt-3.5-turbo-1106"]
    "OpenAI - GPT-3.5 Turbo" true false ["json"; "text"].

(** What [obj[key]] finds on an object literal: an own property, a member
    inherited from [Object.prototype] (a function, or the prototype itself
    for [__proto__]: truthy, with no [version] and no [info]), or nothing. *)
Inductive Property (A : Type) : Type :=
| Own (a : A)
| Inherited
| Missing.
Arguments Own {A} a.
Arguments Inherited {A}.
Arguments Missing {A}.

Definition Object_prototype_keys : list string :=
  [ "constructor"; "__defineGetter__"; "__defineSetter__"; "hasOwnProperty";
    "__lookupGetter__"; "__lookupSetter__"; "isPrototypeOf";
    "propertyIsEnumerable"; "toString"; "valueOf"; "__proto__";
    "toLocaleString" ].

(** [xs.includes(x)] on an array of strings *)
Definition includes (xs : list string) (x : string) : bool :=
  existsb (String.eqb x) xs.

Definition SUPPORTED_GPT_MODELS (key : string) : Property ModelReference :=
  if String.eqb key "gpt-4o" then Own gpt4o
  else if String.eqb key "gpt-4o-mini" then Own gpt4oMini
  else if String.eqb key "gpt-4-turbo" then Own gpt4Turbo
  else if String.eqb key "gpt-4-vision" then Own gpt4Vision
  else if String.eqb key "gpt-4" then Own gpt4
  else if String.eqb key "gpt-3.5-turbo" then Own gpt35Turbo
  else if includes Object_prototype_keys key then Inherited
  else Missing.

(** ** Request builder *)

Definition toOpenAIRole (r : string) : Result string :=
  if String.eqb r "user" then Ok "user"
  else if String.eqb r "model" then Ok "assistant"
  else if String.eqb r "system" then Ok "system"
  else if String.eqb r "tool" then Ok "tool"
  else Throw (UnmappableRole r).

Definition toOpenAiTool (tool : ToolDefinition) : ChatCompletionTool :=
  {| tool_name := td_name tool; tool_parameters := td_inputSchema tool |}.

Definition toOpenAiTextAndMedia (part : Part) (visualDetail : VisualDetailLevel)
    : Result ChatCompletionContentPart :=
  if truthy (text part) then Ok (ContentText (or_empty (text part)))
  else match media part with
       | Some m => Ok (ContentImageUrl (url m) visualDetail)
       | None => Throw UnsupportedPart
       end.

(** ** The vendor request body *)

(** The values the fields of the request body hold. *)
Inductive BodyValue : Type :=
| BUndefined
| BString (s : string)
| BNumber (d : Number)
| BBool (b : bool)
| BStrings (xs : list string)
| BMessages (ms : list ChatCompletionMessageParam)
| BTools (ts : list ChatCompletionTool)
| BLogitBias (bias : list (string * Number))
| BResponseFormat (type : string).

(** [!v] *)
Definition falsy (v : BodyValue) : bool :=
  match v with
  | BUndefined => true
  | BString s => negb (string_truthy s)
  | BNumber d => negb (number_truthy d)
  | BBool b => negb b
  | BStrings _ | BMessages _ | BTools _ | BLogitBias _ | BResponseFormat _ => false
  end.

(** [Array.isArray(v) && !v.length] *)
Definition empty_array (v : BodyValue) : bool :=
  match v with
  | BStrings [] | BMessages [] | BTools [] => true
  | _ => false
  end.

Definition strippable (v : BodyValue) : bool := falsy v || empty_array v.

(** A field read from an optional source: [undefined] when unset. *)
Definition field {A : Type} (inj : A -> BodyValue) (o : option A) : BodyValue :=
  match o with
  | Some a => inj a
  | None => BUndefined
  end.

(** [for (const key in body) if (!body[key] || ...) delete body[key];]
    run over the keys [body] has when the loop starts. *)
Definition strip_key (body : gmap string BodyValue) (key : string)
    : gmap string BodyValue :=
  if strippable (default BUndefined (body !! key)) then delete key body else body.

Definition strip_fields (body : gmap string BodyValue) : gmap string BodyValue :=
  fold_left strip_key (map fst (map_to_list body)) body.

(** The vendor transport's answers. *)
Record ChatCompletionChunk : Type :=
  { chunk_choices : option (list ChunkChoice) }.

Record CompletionUsage : Type :=
  { prompt_tokens : option Z;
    completion_tokens : option Z;
    total_tokens : option Z }.

Record ChatCompletion : Type :=
  { choices : list Choice; usage : option CompletionUsage }.

(** The two calls made on the client: [chat.completions.create(body)] and
    [beta.chat.completions.stream(body)], the latter giving the chunks in
    arrival order and then [finalChatCompletion()]. *)
Record OpenAI : Type :=
  { create : gmap string BodyValue -> ChatCompletion;
    stream : gmap string BodyValue -> list ChatCompletionChunk * ChatCompletion }.

Record GenerateResponseChunkData : Type :=
  { chunk_index : Z; chunk_content : list Part }.

Record GenerationUsage : Type :=
  { inputTokens : option Z; outputTokens : option Z; totalTokens : option Z }.

Record GenerateResponseData : Type :=
  { response_candidates : list CandidateData;
    response_usage : GenerationUsage;
    response_custom : ChatCompletion }.

Section Translator.

(** The runtime's JSON built-ins: [JSON.parse] returns a value or throws
    a [SyntaxError] ([None]); [JSON.stringify] returns a string, or
    [undefined] ([None]) for a value with no JSON text. *)
Variable JSON_parse : string -> option JsValue.
Variable JSON_stringify : JsValue -> option string.

Definition stringify_value (v : JsValue) : MaybeString :=
  match JSON_stringify v with
  | Some s => Str s
  | None => Undefined
  end.

Definition parse_or_throw (s : string) : Result JsValue :=
  match JSON_parse s with
  | Some v => Ok v
  | None => Throw SyntaxError
  end.

Definition toToolCall (r : ToolRequest) : ToolCall :=
  {| tc_id := Some (nullish_empty (tr_ref r));
     tc_function := Some {| fn_name := tr_name r;
                            fn_arguments := stringify_value (tr_input r) |} |}.

Definition toToolMessage (r : ToolResponse) : ChatCompletionMessageParam :=
  ToolParam (nullish_empty (ts_ref r))
    (match ts_output r with
     | JsString s => Str s
     | v => stringify_value v
     end).

(** The vendor messages one generic message contributes. *)
Definition toOpenAiMessage (message : MessageData) (visualDetail : VisualDetailLevel)
    : Result (list ChatCompletionMessageParam) :=
  r <- toOpenAIRole (role message) ;;
  if String.eqb r "user" then
    parts <- map_result (fun part => toOpenAiTextAndMedia part visualDetail)
                        (content message) ;;
    Ok [UserParam parts]
  else if String.eqb r "system" then
    Ok [SystemParam (Message_text message)]
  else if String.eqb r "assistant" then
    let toolCalls := map toToolCall (omap toolRequest (content message)) in
    if (0 <? length toolCalls)%nat then Ok [AssistantToolCallsParam toolCalls]
    else Ok [AssistantParam (Message_text message)]
  else if String.eqb r "tool" then
    Ok (map toToolMessage (Message_toolResponseParts message))
  else Ok [].

Fixpoint push_messages (msgs : list MessageData) (visualDetail : VisualDetailLevel)
    : Result (list ChatCompletionMessageParam) :=
  match msgs with
  | [] => Ok []
  | message :: rest =>
      pushed <- toOpenAiMessage message visualDetail ;;
      more <- push_messages rest visualDetail ;;
      Ok (pushed ++ more)%list
  end.

(** [visualDetailLevel = 'auto'] when the argument is [undefined] *)
Definition toOpenAiMessages (msgs : list MessageData)
    (visualDetailLevel_ : option VisualDetailLevel)
    : Result (list ChatCompletionMessageParam) :=
  push_messages msgs (default detail_auto visualDetailLevel_).

(** [request.config?.version || model.version || modelName] *)
Definition mappedModelName (override default_ : option string) (modelName : string)
    : string :=
  or_else override (or_else default_ modelName).

(** [model.info.supports?.output?.includes(f)] *)
Definition declares_output (model : ModelReference) (f : string) : bool :=
  match supports (info model) with
  | Some s => match supports_output s with
              | Some out => includes out f
              | None => false
              end
  | None => false
  end.

(** The object literal [body] of [toOpenAiRequestBody]: every key is
    there, holding [undefined] when its source is unset. *)
Definition initial_body (mapped : string)
    (openAiMessages : list ChatCompletionMessageParam)
    (request : GenerateRequest) : gmap string BodyValue :=
  list_to_map
    [ ("model", BString mapped);
      ("messages", BMessages openAiMessages);
      ("temperature", field BNumber (config_field temperature request));
      ("max_tokens", field BNumber (config_field maxOutputTokens request));
      ("top_p", field BNumber (config_field topP request));
      ("stop", field BStrings (config_field stopSequences request));
      ("frequency_penalty", field BNumber (config_field frequencyPenalty request));
      ("logit_bias", field BLogitBias (config_field logitBias request));
      ("logprobs", field BBool (config_field logProbs request));
      ("presence_penalty", field BNumber (config_field presencePenalty request));
      ("seed", field BNumber (config_field seed request));
      ("top_logprobs", field BNumber (config_field topLogProbs request));
      ("user", field BString (config_field user request));
      ("tools", field BTools (option_map (map toOpenAiTool) (tools request)));
      ("n", field BNumber (candidates request)) ].

(** The response-format negotiation: the body with its directive, the
    body unchanged, or the exception. [model] is [None] for a member
    inherited from [Object.prototype], whose [info] is [undefined]. *)
Definition negotiate_format (model : option ModelReference) (mapped : string)
    (response_format : option OutputFormat) (body : gmap string BodyValue)
    : Result (gmap string BodyValue) :=
  match response_format with
  | Some f =>
      if includes MODELS_SUPPORTING_OPENAI_RESPONSE_FORMAT mapped then
        match f, model with
        | format_json, Some m =>
            if declares_output m "json"
            then Ok (<["response_format" := BResponseFormat "json_object"]> body)
            else Throw (UnsupportedOutputFormat (format_name f))
        | format_text, Some m =>
            if declares_output m "text"
            then Ok (<["response_format" := BResponseFormat "text"]> body)
            else Throw (UnsupportedOutputFormat (format_name f))
        | format_media, _ => Throw (UnsupportedOutputFormat (format_name f))
        | _, None => Throw TypeError
        end
      else Ok body
  | None => Ok body
  end.

(** The body as it stands before the last loop of [toOpenAiRequestBody]. *)
Definition unstripped_body (modelName : string) (request : GenerateRequest)
    : Result (gmap string BodyValue) :=
  model <- match SUPPORTED_GPT_MODELS modelName with
           | Own m => Ok (Some m)
           | Inherited => Ok None
           | Missing => Throw (UnsupportedModel modelName)
           end ;;
  openAiMessages <- toOpenAiMessages (messages request)
                      (config_field visualDetailLevel request) ;;
  let mapped := mappedModelName (config_field version request)
                  (model ≫= ref_version) modelName in
  negotiate_format model mapped (output_format request)
    (initial_body mapped openAiMessages request).

Definition toOpenAiRequestBody (modelName : string) (request : GenerateRequest)
    : Result (gmap string BodyValue) :=
  body <- unstripped_body modelName request ;;
  Ok (strip_fields body).

(** ** Response reducer *)

(** [finishReasonMap[key]]: the value of an own key, the inherited member
    for the name of a member of [Object.prototype], [undefined] ([None])
    otherwise. Whatever is found is truthy. *)
Definition finishReasonMap (key : string) : option FinishReason :=
  if String.eqb key "length" then Some finish_length
  else if String.eqb key "stop" then Some finish_stop
  else if String.eqb key "tool_calls" then Some finish_stop
  else if String.eqb key "content_filter" then Some finish_blocked
  else if includes Object_prototype_keys key then Some (finish_member key)
  else None.

Definition fromOpenAiToolCall (toolCall : ToolCall) : Result Part :=
  match tc_function toolCall with
  | None => Throw MalformedToolCall
  | Some f =>
      let args :=
        if truthy (fn_arguments f) then
          match JSON_parse (or_empty (fn_arguments f)) with
          | Some v => v
          | None => to_value (fn_arguments f)
          end
        else to_value (fn_arguments f) in
      Ok (toolRequestPart {| tr_name := fn_name f;
                             tr_ref := tc_id toolCall;
                             tr_input := args |})
  end.

(** [tool_calls?.map(fromOpenAiToolCall)] *)
Definition toolRequestParts_of (tool_calls : option (list ToolCall))
    : Result (option (list Part)) :=
  match tool_calls with
  | Some calls => parts <- map_result fromOpenAiToolCall calls ;; Ok (Some parts)
  | None => Ok None
  end.

(** [[ jsonMode ? { data: JSON.parse(content!) } : { text: content! } ]] *)
Definition content_part (c : MaybeString) (jsonMode : bool) : Result (list Part) :=
  if jsonMode then v <- parse_or_throw (to_text c) ;; Ok [dataPart v]
  else Ok [textPart c].

Definition fromOpenAiChoice (choice : Choice) (jsonMode : bool) : Result CandidateData :=
  toolRequestParts <- toolRequestParts_of (m_tool_calls (c_message choice)) ;;
  let finishReason :=
    default finish_other (c_finish_reason choice ≫= finishReasonMap) in
  parts <- match toolRequestParts with
           | Some (p :: ps) => Ok (p :: ps)
           | Some [] | None => content_part (m_content (c_message choice)) jsonMode
           end ;;
  Ok {| cd_index := c_index choice;
        cd_finishReason := finishReason;
        cd_message := {| role := "model"; content := parts |};
        cd_custom := JsObject [] |}.

Definition fromOpenAiChunkChoice (choice : ChunkChoice) (jsonMode : bool)
    : Result CandidateData :=
  toolRequestParts <- toolRequestParts_of (m_tool_calls (k_delta choice)) ;;
  let finishReason :=
    match k_finish_reason choice with
    | Some r => if string_truthy r then default finish_other (finishReasonMap r)
                else finish_unknown
    | None => finish_unknown
    end in
  parts <- match toolRequestParts with
           | Some ps => Ok ps
           | None => content_part (m_content (k_delta choice)) jsonMode
           end ;;
  Ok {| cd_index := k_index choice;
        cd_finishReason := finishReason;
        cd_message := {| role := "model"; content := parts |};
        cd_custom := JsObject [] |}.

(** ** Runner *)

(** [chunk.choices?.forEach(...)]: each choice is converted with the
    default [jsonMode] and handed to the streaming callback; [sent] is
    what the callback has received so far. An exception ends the feed. *)
Fixpoint forEach_choice (cs : list ChunkChoice) (sent : list GenerateResponseChunkData)
    : list GenerateResponseChunkData * Result unit :=
  match cs with
  | [] => (sent, Ok tt)
  | chunk :: rest =>
      match fromOpenAiChunkChoice chunk false with
      | Ok c =>
          forEach_choice rest
            (sent ++ [{| chunk_index := cd_index c;
                         chunk_content := content (cd_message c) |}])%list
      | Throw e => (sent, Throw e)
      end
  end.

(** [for await (const chunk of stream) ...] *)
Fixpoint for_await (chunks : list ChatCompletionChunk)
    (sent : list GenerateResponseChunkData)
    : list GenerateResponseChunkData * Result unit :=
  match chunks with
  | [] => (sent, Ok tt)
  | chunk :: rest =>
      match forEach_choice (default [] (chunk_choices chunk)) sent with
      | (sent', Ok _) => for_await rest sent'
      | (sent', Throw e) => (sent', Throw e)
      end
  end.

Definition toResponse (request : GenerateRequest) (response : ChatCompletion)
    : Result GenerateResponseData :=
  let jsonMode :=
    match output_format request with
    | Some format_json => true
    | _ => false
    end in
  cands <- map_result (fun c => fromOpenAiChoice c jsonMode) (choices response) ;;
  Ok {| response_candidates := cands;
        response_usage :=
          {| inputTokens := usage response ≫= prompt_tokens;
             outputTokens := usage response ≫= completion_tokens;
             totalTokens := usage response ≫= total_tokens |};
        response_custom := response |}.

(** The runner: what the streaming callback received, and the result (or
    the exception that ended the call). [streaming] tells whether a
    streaming callback was passed. *)
Definition gptRunner (name_ : string) (client : OpenAI)
    (request : GenerateRequest) (streaming : bool)
    : list GenerateResponseChunkData * Result GenerateResponseData :=
  match toOpenAiRequestBody name_ request with
  | Throw e => ([], Throw e)
  | Ok body =>
      if streaming then
        let '(chunks, final) := stream client (<["stream" := BBool true]> body) in
        match for_await chunks [] with
        | (sent, Ok _) => (sent, toResponse request final)
        | (sent, Throw e) => (sent, Throw e)
        end
      else ([], toResponse request (create client body))
  end.

End Translator.

(** ** A reference reader and printer for JSON

    The translator above is parametric in the runtime's [JSON.parse] and
    [JSON.stringify]. This module gives one concrete pair to run it with:
    a reader for the JSON grammar (objects, arrays, strings with their
    escapes, numbers with fraction and exponent, the three literals,
    insignificant white space) and a printer without indentation. Strings
    are byte strings, so a [\uXXXX] escape is read as the UTF-8 bytes of that
    code unit; numbers are exact decimals in normal form, so the sign of
    zero and the switch to exponent notation for very large or very small
    numbers are not reproduced; a repeated key keeps its first position and
    its last value. *)
Module JSON.

Definition code (c : ascii) : Z := Z.of_N (N_of_ascii c).
Definition chr (z : Z) : ascii := ascii_of_N (Z.to_N z).
Definition quote : ascii := chr 34.
Definition quoted (s : string) : string :=
  String quote (s ++ String quote EmptyString).

Definition is_space (c : ascii) : bool :=
  let n := code c in (n =? 32) || (n =? 9) || (n =? 10) || (n =? 13).

Fixpoint skip (s : string) : string :=
  match s with
  | String c rest => if is_space c then skip rest else s
  | EmptyString => s
  end.

Definition digit (c : ascii) : option Z :=
  let n := code c in
  if (48 <=? n) && (n <=? 57) then Some (n - 48) else None.

Definition hex (c : ascii) : option Z :=
  let n := code c in
  if (48 <=? n) && (n <=? 57) then Some (n - 48)
  else if (97 <=? n) && (n <=? 102) then Some (n - 87)
  else if (65 <=? n) && (n <=? 70) then Some (n - 55)
  else None.

(** A run of digits: the value read so far and how many digits it took. *)
Fixpoint digits (s : string) (acc count : Z) : Z * Z * string :=
  match s with
  | String c rest =>
      match digit c with
      | Some d => digits rest (10 * acc + d) (count + 1)
      | None => (acc, count, s)
      end
  | EmptyString => (acc, count, s)
  end.

Definition integer_part (s : string) : option (Z * string) :=
  match s with
  | String c rest =>
      match digit c with
      | Some 0 => Some (0, rest)
      | Some d => let '(v, _, rest') := digits rest d 1 in Some (v, rest')
      | None => None
      end
  | EmptyString => None
  end.

Definition fraction_part (s : string) : option (Z * Z * string) :=
  match s with
  | String "." rest =>
      let '(v, n, rest') := digits rest 0 0 in
      if n =? 0 then None else Some (v, n, rest')
  | _ => Some (0, 0, s)
  end.

Definition exponent_part (s : string) : option (Z * string) :=
  match s with
  | String c rest =>
      if (code c =? 101) || (code c =? 69) then
        let '(sign, rest1) :=
          match rest with
          | String "-" r => (-1, r)
          | String "+" r => (1, r)
          | _ => (1, rest)
          end in
        let '(v, n, rest2) := digits rest1 0 0 in
        if n =? 0 then None else Some (sign * v, rest2)
      else Some (0, s)
  | EmptyString => Some (0, s)
  end.

(** Normal form: no trailing zero in the mantissa, and [0] is [0 * 10^0]. *)
Fixpoint normal (fuel : nat) (m e : Z) : Number :=
  match fuel with
  | O => {| mant := m; expo := e |}
  | S fuel' =>
      if m =? 0 then {| mant := 0; expo := 0 |}
      else if m mod 10 =? 0 then normal fuel' (m / 10) (e + 1)
      else {| mant := m; expo := e |}
  end.

Definition number (s : string) : option (Number * string) :=
  let '(sign, s1) :=
    match s with
    | String "-" r => (-1, r)
    | _ => (1, s)
    end in
  match integer_part s1 with
  | Some (i, s2) =>
      match fraction_part s2 with
      | Some (f, n, s3) =>
          match exponent_part s3 with
          | Some (e, s4) =>
              let m := sign * (i * 10 ^ n + f) in
              Some (normal (S (Z.to_nat (Z.log2 (Z.abs m)))) m (e - n), s4)
          | None => None
          end
      | None => None
      end
  | None => None
  end.

(** The UTF-8 bytes of a code unit below [0x10000]. *)
Definition utf8 (cp : Z) : string :=
  if cp <? 128 then String (chr cp) EmptyString
  else if cp <? 2048 then
    String (chr (192 + cp / 64)) (String (chr (128 + cp mod 64)) EmptyString)
  else
    String (chr (224 + cp / 4096))
      (String (chr (128 + (cp / 64) mod 64))
         (String (chr (128 + cp mod 64)) EmptyString)).

Definition escape (c : ascii) : option ascii :=
  let n := code c in
  if (n =? 34) || (n =? 92) || (n =? 47) then Some c
  else if n =? 98 then Some (chr 8)
  else if n =? 102 then Some (chr 12)
  else if n =? 110 then Some (chr 10)
  else if n =? 114 then Some (chr 13)
  else if n =? 116 then Some (chr 9)
  else None.

Definition hex4 (a b c d : ascii) : option Z :=
  match hex a, hex b, hex c, hex d with
  | Some x, Some y, Some z, Some w => Some (((x * 16 + y) * 16 + z) * 16 + w)
  | _, _, _, _ => None
  end.

Definition prepend (p : string) (r : option (string * string))
    : option (string * string) :=
  match r with
  | Some (body, rest) => Some (p ++ body, rest)
  | None => None
  end.

(** The characters of a string, after its opening quote. *)
Fixpoint chars (s : string) : option (string * string) :=
  match s with
  | EmptyString => None
  | String c rest =>
      if code c =? 34 then Some (EmptyString, rest)
      else if code c =? 92 then
        match rest with
        | String e rest1 =>
            match escape e with
            | Some x => prepend (String x EmptyString) (chars rest1)
            | None =>
                if code e =? 117 then
                  match rest1 with
                  | String h1 (String h2 (String h3 (String h4 rest2))) =>
                      match hex4 h1 h2 h3 h4 with
                      | Some cp => prepend (utf8 cp) (chars rest2)
                      | None => None
                      end
                  | _ => None
                  end
                else None
            end
        | EmptyString => None
        end
      else if code c <? 32 then None
      else prepend (String c EmptyString) (chars rest)
  end.

(** [after p s]: what follows the prefix [p] of [s]. *)
Fixpoint after (p s : string) : option string :=
  match p, s with
  | EmptyString, _ => Some s
  | String a p', String b s' => if Ascii.eqb a b then after p' s' else None
  | String _ _, EmptyString => None
  end.

Fixpoint set_prop (k : string) (v : JsValue) (props : list (string * JsValue))
    : list (string * JsValue) :=
  match props with
  | [] => [(k, v)]
  | (k', v') :: rest =>
      if String.eqb k k' then (k', v) :: rest else (k', v') :: set_prop k v rest
  end.

Definition literal (s : string) : option (JsValue * string) :=
  match after "true" s, after "false" s, after "null" s with
  | Some rest, _, _ => Some (JsBool true, rest)
  | _, Some rest, _ => Some (JsBool false, rest)
  | _, _, Some rest => Some (JsNull, rest)
  | None, None, None =>
      match number s with
      | Some (d, rest) => Some (JsNumber d, rest)
      | None => None
      end
  end.

Fixpoint value (fuel : nat) (s : string) : option (JsValue * string) :=
  match fuel with
  | O => None
  | S fuel' =>
      match skip s with
      | String c rest =>
          if code c =? 123 then
            match skip rest with
            | String "}" rest' => Some (JsObject [], rest')
            | _ => members fuel' [] rest
            end
          else if code c =? 91 then
            match skip rest with
            | String "]" rest' => Some (JsArray [], rest')
            | _ => elements fuel' [] rest
            end
          else if code c =? 34 then
            match chars rest with
            | Some (str, rest') => Some (JsString str, rest')
            | None => None
            end
          else literal (String c rest)
      | EmptyString => None
      end
  end
with elements (fuel : nat) (acc : list JsValue) (s : string)
    : option (JsValue * string) :=
  match fuel with
  | O => None
  | S fuel' =>
      match value fuel' s with
      | Some (v, rest) =>
          match skip rest with
          | String "," rest' => elements fuel' (acc ++ [v])%list rest'
          | String "]" rest' => Some (JsArray (acc ++ [v])%list, rest')
          | _ => None
          end
      | None => None
      end
  end
with members (fuel : nat) (acc : list (string * JsValue)) (s : string)
    : option (JsValue * string) :=
  match fuel with
  | O => None
  | S fuel' =>
      match skip s with
      | String c rest =>
          if code c =? 34 then
            match chars rest with
            | Some (k, rest1) =>
                match skip rest1 with
                | String ":" rest2 =>
                    match value fuel' rest2 with
                    | Some (v, rest3) =>
                        match skip rest3 with
                        | String "," rest4 => members fuel' (set_prop k v acc) rest4
                        | String "}" rest4 => Some (JsObject (set_prop k v acc), rest4)
                        | _ => None
                        end
                    | None => None
                    end
                | _ => None
                end
            | None => None
            end
          else None
      | EmptyString => None
      end
  end.

(** [JSON.parse]: one value, white space around it, nothing else. Every
    call of the reader is preceded by a character read or is one of two
    calls in a row, so twice the length of the text is fuel enough. *)
Definition parse (s : string) : option JsValue :=
  match value (2 * String.length s + 2) s with
  | Some (v, rest) =>
      match skip rest with
      | EmptyString => Some v
      | String _ _ => None
      end
  | None => None
  end.

(** *** The printer *)

Definition hex_digit (n : Z) : ascii :=
  if n <? 10 then chr (48 + n) else chr (87 + n).

Definition print_char (c : ascii) : string :=
  let n := code c in
  if n =? 34 then "\" ++ String quote EmptyString
  else if n =? 92 then "\\"
  else if n =? 8 then "\b"
  else if n =? 12 then "\f"
  else if n =? 10 then "\n"
  else if n =? 13 then "\r"
  else if n =? 9 then "\t"
  else if n <? 32 then
    "\u00" ++ String (hex_digit (n / 16)) (String (hex_digit (n mod 16)) EmptyString)
  else String c EmptyString.

Fixpoint print_chars (s : string) : string :=
  match s with
  | EmptyString => EmptyString
  | String c rest => print_char c ++ print_chars rest
  end.

Definition print_string (s : string) : string := quoted (print_chars s).

Fixpoint zeros (n : nat) : string :=
  match n with
  | O => EmptyString
  | S n' => String "0" (zeros n')
  end.

Definition print_number (d : Number) : string :=
  let m := mant d in
  let e := expo d in
  if m =? 0 then "0"
  else if 0 <=? e then pretty m ++ zeros (Z.to_nat e)
  else
    let sign := if m <? 0 then "-" else "" in
    let ds := pretty (Z.abs m) in
    let len := String.length ds in
    let k := Z.to_nat (- e) in
    if (k <? len)%nat
    then sign ++ substring 0 (len - k) ds ++ "." ++ substring (len - k) k ds
    else sign ++ "0." ++ zeros (k - len) ++ ds.

(** The text of a value; [None] for [undefined], which has none. Inside
    an array [undefined] prints as [null]; inside an object the property
    is left out. *)
Fixpoint text_of (v : JsValue) : option string :=
  match v with
  | JsUndefined => None
  | JsNull => Some "null"
  | JsBool b => Some (if b then "true" else "false")
  | JsNumber d => Some (print_number d)
  | JsString s => Some (print_string s)
  | JsArray items =>
      Some ("[" ++ String.concat ","
                     (map (fun x => default "null" (text_of x)) items) ++ "]")
  | JsObject props =>
      let member (kv : string * JsValue) (acc : list string) :=
        match text_of (snd kv) with
        | Some t => (print_string (fst kv) ++ ":" ++ t) :: acc
        | None => acc
        end in
      Some ("{" ++ String.concat "," (fold_right member [] props) ++ "}")
  end.

Definition stringify : JsValue -> option string := text_of.

End JSON.

(** ** Notions used to state the properties *)


(** The candidate a choice reduces to once its finish reason and content
    parts are known. *)
Definition candidate (index : Z) (reason : FinishReason) (parts : list Part)
    : CandidateData :=
  {| cd_index := index;
     cd_finishReason := reason;
     cd_message := {| role := "model"; content := parts |};
     cd_custom := JsObject [] |}.

(** What stripping leaves of a body field. *)
Definition kept (o : option BodyValue) : option BodyValue :=
  match o with
  | Some v => if strippable v then None else Some v
  | None => None
  end.

(** A generic message whose parts are text parts, one per string. *)
Definition text_message (r : string) (texts : list string) : MessageData :=
  {| role := r; content := map (fun s => textPart (Str s)) texts |}.

(** The text a vendor message carries: its string content, or the text
    items of its content list one after the other. *)
Definition vendor_text (m : ChatCompletionMessageParam) : string :=
  match m with
  | UserParam parts =>
      String.concat ""
        (map (fun p => match p with
                       | ContentText t => t
                       | ContentImageUrl _ _ => ""
                       end) parts)
  | SystemParam c | AssistantParam c => c
  | AssistantToolCallsParam _ => ""
  | ToolParam _ c => or_empty c
  end.

(** The vendor answering with a choice that carries the given content and
    no tool call. *)
Definition echo (c : string) : Choice :=
  {| c_index := 0;
     c_finish_reason := Some vendor_stop;
     c_message := {| m_content := Str c; m_tool_calls := None |} |}.

(** The text of a whole list of vendor messages, and all the text parts
    of a list of text-only messages, in order. *)
Definition vendor_texts (ms : list ChatCompletionMessageParam) : string :=
  String.concat "" (map vendor_text ms).

Definition all_texts (texts : list (string * list string)) : list string :=
  concat (map snd texts).

(** What the streaming callback is handed for a chunk choice: the index of
    the choice and, when the choice has no tool calls, a single text part
    holding the content of its delta. *)
Definition delivers (choice : ChunkChoice) (sent : GenerateResponseChunkData) : Prop :=
  chunk_index sent = k_index choice
  /\ (m_tool_calls (k_delta choice) = None ->
      chunk_content sent = [textPart (m_content (k_delta choice))]).

(** A chunk choice none of whose tool calls lacks its function payload. *)
Definition well_formed (choice : ChunkChoice) : Prop :=
  forall calls, m_tool_calls (k_delta choice) = Some calls ->
                Forall (fun call => tc_function call <> None) calls.

(** The choices of a stream, in arrival order. *)
Definition stream_choices (chunks : list ChatCompletionChunk) : list ChunkChoice :=
  concat (map (fun chunk => default [] (chunk_choices chunk)) chunks).

(** The finish-reason table as the specification words it. *)
Definition reduced_reason (r : string) : FinishReason :=
  if String.eqb r "length" then finish_length
  else if String.eqb r "stop" then finish_stop
  else if String.eqb r "tool_calls" then finish_stop
  else if String.eqb r "content_filter" then finish_blocked
  else finish_other.

(** ** Model definition *)

(** What [defineModel] is handed by [gptModel]: the options object (the
    model's name and the fields of [model.info] spread into it, none when
    [info] is [undefined]) and the runner. *)
Record ModelAction : Type :=
  { action_name : string;
    action_info : option ModelInfo;
    action_run : GenerateRequest -> bool ->
                 list GenerateResponseChunkData * Result GenerateResponseData }.

Section Definer.

Variable JSON_parse : string -> option JsValue.
Variable JSON_stringify : JsValue -> option string.

Definition gptModel (name_ : string) (client : OpenAI) : Result ModelAction :=
  let modelId := "openai/" ++ name_ in
  match SUPPORTED_GPT_MODELS name_ with
  | Missing => Throw (UnsupportedModel name_)
  | Own model =>
      Ok {| action_name := modelId;
            action_info := Some (info model);
            action_run := gptRunner JSON_parse JSON_stringify name_ client |}
  | Inherited =>
      Ok {| action_name := modelId;
            action_info := None;
            action_run := gptRunner JSON_parse JSON_stringify name_ client |}
  end.

End Definer.

(** ** Further notions used to state the properties *)

(** The four roles [toOpenAIRole] maps. *)
Definition known_role (r : string) : Prop :=
  r = "user" \/ r = "model" \/ r = "system" \/ r = "tool".

(** A part [toOpenAiTextAndMedia] accepts: [part.text] or [part.media] is
    truthy. *)
Definition has_text_or_media (p : Part) : Prop :=
  truthy (text p) = true \/ media p <> None.

(** A message [toOpenAiMessages] accepts. *)
Definition convertible (m : MessageData) : Prop :=
  known_role (role m)
  /\ (role m = "user" -> Forall has_text_or_media (content m)).

(** How many vendor messages a message gives: one per tool response
    under the role [tool], one otherwise. *)
Definition vendor_count (m : MessageData) : nat :=
  if String.eqb (role m) "tool" then length (Message_toolResponseParts m) else 1%nat.

(** The keys of the object literal [body], and the one added by the
    negotiation. *)
Definition body_keys_of_literal : list string :=
  [ "model"; "messages"; "temperature"; "max_tokens"; "top_p"; "stop";
    "frequency_penalty"; "logit_bias"; "logprobs"; "presence_penalty"; "seed";
    "top_logprobs"; "user"; "tools"; "n" ].

(** A choice each of whose tool calls carries its function payload. *)
Definition well_formed_choice (choice : Choice) : Prop :=
  forall calls, m_tool_calls (c_message choice) = Some calls ->
                Forall (fun call => tc_function call <> None) calls.

(** ** Concrete inputs

    The requests, tool calls, choices and transport used to run the
    translator in the examples below. *)
Module Examples.

Definition config_with (v : option string) (s : option Number) : OpenAiConfig :=
  {| version := v; temperature := None; maxOutputTokens := None; topP := None;
     stopSequences := None; frequencyPenalty := None; logitBias := None;
     logProbs := None; presencePenalty := None; seed := s; topLogProbs := None;
     user := None; visualDetailLevel := None |}.

Definition request_with (msgs : list MessageData) (v : option string)
    (f : option OutputFormat) : GenerateRequest :=
  {| messages := msgs;
     config := Some (config_with v None);
     tools := None;
     output := Some {| format := f; schema := None |};
     candidates := None |}.

Definition greeting_texts : list (string * list string) :=
  [ ("system", ["Be brief."]); ("user", ["Hello, "; "world"]); ("model", ["Hi"; ""]) ].

Definition greeting : list MessageData :=
  map (fun m => text_message (fst m) (snd m)) greeting_texts.

(** A user message whose only part is the text part [{ text: '' }]. *)
Definition empty_text : list MessageData := [text_message "user" [""]].

Definition one : Number := {| mant := 1; expo := 0 |}.

(** The texts [{"x":1}] and [{"a":1}]. *)
Definition x_is_1 : string := "{" ++ JSON.quoted "x" ++ ":1}".
Definition a_is_1 : string := "{" ++ JSON.quoted "a" ++ ":1}".

Definition tool_call (arguments : MaybeString) : ToolCall :=
  {| tc_id := Some "call_0";
     tc_function := Some {| fn_name := Some "lookup"; fn_arguments := arguments |} |}.

Definition bare_tool_call : ToolCall :=
  {| tc_id := Some "call_0"; tc_function := None |}.

Definition choice_of (reason : option string) (c : MaybeString)
    (calls : option (list ToolCall)) : Choice :=
  {| c_index := 0;
     c_finish_reason := reason;
     c_message := {| m_content := c; m_tool_calls := calls |} |}.

Definition chunk_choice_of (reason : option string) (c : MaybeString)
    (calls : option (list ToolCall)) : ChunkChoice :=
  {| k_index := 0;
     k_finish_reason := reason;
     k_delta := {| m_content := c; m_tool_calls := calls |} |}.

(** A stream of two fragments of the text [{"a":1}], then the whole. *)
Definition fragments : list ChatCompletionChunk :=
  [ {| chunk_choices := Some [chunk_choice_of None (Str "{") None] |};
    {| chunk_choices :=
         Some [chunk_choice_of (Some vendor_stop)
                 (Str (JSON.quoted "a" ++ ":1}")) None] |} ].

Definition completion : ChatCompletion :=
  {| choices := [choice_of (Some vendor_stop) (Str a_is_1) None];
     usage := None |}.

Definition client : OpenAI :=
  {| create := fun _ => completion;
     stream := fun _ => (fragments, completion) |}.

End Examples.

(** ** More concrete inputs *)
Module Cases.

Import Examples.

(** A conversation whose second message has a role outside the four. *)
Definition with_unknown_role : list MessageData :=
  [ text_message "system" ["Be brief."]; text_message "developer" ["Hello"];
    text_message "user" [""] ].

Definition response_part (r : option string) (output_ : JsValue) : Part :=
  {| text := Undefined; media := None; toolRequest := None;
     toolResponse := Some {| ts_name := "lookup"; ts_ref := r; ts_output := output_ |};
     data := None |}.

(** A tool message with two tool responses around a text part. *)
Definition tool_results : MessageData :=
  {| role := "tool";
     content := [ response_part (Some "call_0") (JsString "42");
                  textPart (Str "not sent");
                  response_part None (JsObject [("ok", JsBool true)]) ] |}.

Definition lookup_request : ToolRequest :=
  {| tr_name := Some "lookup"; tr_ref := None;
     tr_input := JsObject [("x", JsNumber one)] |}.

(** A model message with some text and a tool request. *)
Definition model_turn : MessageData :=
  {| role := "model";
     content := [ textPart (Str "Let me look."); toolRequestPart lookup_request ] |}.

(** A user message with a text part, an image, and a part with both. *)
Definition picture : Media :=
  {| url := "https://example.com/cat.png"; contentType := Some "image/png" |}.

Definition user_turn : MessageData :=
  {| role := "user";
     content := [ textPart (Str "What is this?");
                  {| text := Undefined; media := Some picture; toolRequest := None;
                     toolResponse := None; data := None |};
                  {| text := Str "A caption"; media := Some picture;
                     toolRequest := None; toolResponse := None; data := None |} ] |}.

(** A request with one tool, a temperature and a candidate count. *)
Definition tooled_request : GenerateRequest :=
  {| messages := greeting;
     config := Some {| version := None;
                       temperature := Some {| mant := 7; expo := -1 |};
                       maxOutputTokens := Some {| mant := 256; expo := 0 |};
                       topP := None; stopSequences := Some ["END"];
                       frequencyPenalty := None; logitBias := None;
                       logProbs := Some true; presencePenalty := None;
                       seed := None;
                       topLogProbs := Some {| mant := 2; expo := 0 |};
                       user := None; visualDetailLevel := None |};
     tools := Some [ {| td_name := "lookup";
                        td_inputSchema := JsObject [("type", JsString "object")] |} ];
     output := None;
     candidates := Some {| mant := 2; expo := 0 |} |}.

(** A transport whose stream holds a tool call without function payload. *)
Definition broken_client : OpenAI :=
  {| create := fun _ => completion;
     stream := fun _ =>
       ([ {| chunk_choices := Some [chunk_choice_of None (Str "Hi") None] |};
          {| chunk_choices := None |};
          {| chunk_choices :=
               Some [chunk_choice_of None Undefined (Some [bare_tool_call])] |} ],
        completion) |}.

End Cases.

(** * Properties *)

Section Reducer.

Variable JSON_parse : string -> option JsValue.

Lemma includes_In (xs : list string) (x : string) :
  includes xs x = true -> In x xs.
Proof.
  unfold includes. intros H. apply existsb_exists in H.
  destruct H as (y & Hin & Heq). apply String.eqb_eq in Heq. subst. exact Hin.
Qed.

Lemma finishReasonMap_reduced (r : string) :
  ~ In r Object_prototype_keys ->
  default finish_other (finishReasonMap r) = reduced_reason r.
Proof.
  intros Hout. unfold finishReasonMap, reduced_reason.
  repeat match goal with
         | |- context [String.eqb r ?k] => destruct (String.eqb r k); [reflexivity|]
         end.
  destruct (includes Object_prototype_keys r) eqn:Hin; [|reflexivity].
  exfalso. apply Hout, includes_In, Hin.
Qed.

(** The only exception a tool-call conversion raises. *)
Lemma fromOpenAiToolCall_throw (toolCall : ToolCall) (e : Exception) :
  fromOpenAiToolCall JSON_parse toolCall = Throw e -> e = MalformedToolCall.
Proof.
  unfold fromOpenAiToolCall.
  destruct (tc_function toolCall); intros H; congruence.
Qed.

Lemma map_fromOpenAiToolCall_missing (calls : list ToolCall) (toolCall : ToolCall) :
  In toolCall calls -> tc_function toolCall = None ->
  map_result (fromOpenAiToolCall JSON_parse) calls = Throw MalformedToolCall.
Proof.
  induction calls as [|call rest IH]; intros Hin Hnone; [destruct Hin|].
  simpl.
  destruct (fromOpenAiToolCall JSON_parse call) as [part|e] eqn:Hcall.
  - destruct Hin as [->|Hin].
    + unfold fromOpenAiToolCall in Hcall. rewrite Hnone in Hcall. discriminate.
    + simpl. rewrite (IH Hin Hnone). reflexivity.
  - simpl. f_equal. eapply fromOpenAiToolCall_throw; eassumption.
Qed.

Lemma map_fromOpenAiToolCall_present (calls : list ToolCall) :
  Forall (fun call => tc_function call <> None) calls ->
  exists parts, map_result (fromOpenAiToolCall JSON_parse) calls = Ok parts
                /\ length parts = length calls.
Proof.
  induction 1 as [|call rest Hcall _ IH].
  - exists []. split; reflexivity.
  - destruct IH as (parts & Hparts & Hlen).
    simpl. unfold fromOpenAiToolCall at 1.
    destruct (tc_function call) as [f|]; [|congruence].
    simpl. rewrite Hparts. simpl. eexists. split; [reflexivity|].
    simpl. congruence.
Qed.

(** C2. A tool call that carries its function payload always converts
    to a tool-request part, never to an exception. The part's input is the
    value [JSON.parse] gives for the arguments string when it parses, and
    the arguments themselves, unchanged, when it does not (or when there
    is nothing to parse). [JSON.parse] rejects the empty text. *)
Theorem tool_call_input_parsed_or_raw (toolCall : ToolCall) (f : ToolCallFunction) :
  JSON_parse "" = None ->
  tc_function toolCall = Some f ->
  exists input,
    fromOpenAiToolCall JSON_parse toolCall =
      Ok (toolRequestPart {| tr_name := fn_name f;
                             tr_ref := tc_id toolCall;
                             tr_input := input |})
    /\ (forall s v, fn_arguments f = Str s -> JSON_parse s = Some v -> input = v)
    /\ (forall s, fn_arguments f = Str s -> JSON_parse s = None -> input = JsString s)
    /\ ((forall s, fn_arguments f <> Str s) -> input = to_value (fn_arguments f)).
Proof.
  intros Hempty Hf. unfold fromOpenAiToolCall. rewrite Hf.
  eexists. split; [reflexivity|].
  destruct (fn_arguments f) as [| |[|c s]] eqn:Hargs; simpl;
    try destruct (JSON_parse (String c s)) as [v|] eqn:Hparse.
  all: split; [|split]; intros; simplify_eq; try congruence; try reflexivity.
  all: exfalso; eauto.
Qed.

(** C3. A tool call without its function payload makes the conversion
    throw, and the exception is not caught on the way up: a choice or a
    chunk choice listing such a call throws it too. *)
Theorem missing_function_is_malformed (toolCall : ToolCall) :
  tc_function toolCall = None ->
  fromOpenAiToolCall JSON_parse toolCall = Throw MalformedToolCall
  /\ (forall (choice : Choice) (calls : list ToolCall) (jsonMode : bool),
        m_tool_calls (c_message choice) = Some calls -> In toolCall calls ->
        fromOpenAiChoice JSON_parse choice jsonMode = Throw MalformedToolCall)
  /\ (forall (choice : ChunkChoice) (calls : list ToolCall) (jsonMode : bool),
        m_tool_calls (k_delta choice) = Some calls -> In toolCall calls ->
        fromOpenAiChunkChoice JSON_parse choice jsonMode = Throw MalformedToolCall).
Proof.
  intros Hnone. split; [|split].
  - unfold fromOpenAiToolCall. rewrite Hnone. reflexivity.
  - intros choice calls jsonMode Hcalls Hin.
    unfold fromOpenAiChoice, toolRequestParts_of. rewrite Hcalls.
    rewrite (map_fromOpenAiToolCall_missing calls toolCall Hin Hnone). reflexivity.
  - intros choice calls jsonMode Hcalls Hin.
    unfold fromOpenAiChunkChoice, toolRequestParts_of. rewrite Hcalls.
    rewrite (map_fromOpenAiToolCall_missing calls toolCall Hin Hnone). reflexivity.
Qed.

(** Whatever a reduction returns carries the finish reason computed from
    the choice alone. *)
Lemma fromOpenAiChoice_finishReason (choice : Choice) (jsonMode : bool)
    (c : CandidateData) :
  fromOpenAiChoice JSON_parse choice jsonMode = Ok c ->
  cd_finishReason c = default finish_other (c_finish_reason choice ≫= finishReasonMap).
Proof.
  unfold fromOpenAiChoice.
  destruct (toolRequestParts_of JSON_parse (m_tool_calls (c_message choice)))
    as [[[|p ps]|]|e]; simpl; try discriminate.
  all: try (destruct (content_part JSON_parse (m_content (c_message choice)) jsonMode);
            simpl; try discriminate).
  all: intros [= <-]; reflexivity.
Qed.

Lemma fromOpenAiChunkChoice_finishReason (choice : ChunkChoice) (jsonMode : bool)
    (c : CandidateData) :
  fromOpenAiChunkChoice JSON_parse choice jsonMode = Ok c ->
  cd_finishReason c =
    match k_finish_reason choice with
    | Some r => if string_truthy r then default finish_other (finishReasonMap r)
                else finish_unknown
    | None => finish_unknown
    end.
Proof.
  unfold fromOpenAiChunkChoice.
  destruct (toolRequestParts_of JSON_parse (m_tool_calls (k_delta choice)))
    as [[ps|]|e]; simpl; try discriminate.
  all: try (destruct (content_part JSON_parse (m_content (k_delta choice)) jsonMode);
            simpl; try discriminate).
  all: intros [= <-]; reflexivity.
Qed.

(** C4, as the code has it. The finish reason of a reduced choice follows
    the fixed table, ["length"] to [length], ["stop"] and ["tool_calls"] to
    [stop], ["content_filter"] to [blocked]; any other value gives [other],
    provided it is not the name of a member of [Object.prototype] and, on
    the streaming path, not the empty string. With no reason the
    non-streaming path gives [other]; with no reason or an empty one the
    streaming path gives [unknown], a distinct value. *)
Theorem finishReason_table (choice : Choice) (chunk : ChunkChoice)
    (jsonMode : bool) (c : CandidateData) :
  (fromOpenAiChoice JSON_parse choice jsonMode = Ok c ->
     match c_finish_reason choice with
     | Some r => ~ In r Object_prototype_keys -> cd_finishReason c = reduced_reason r
     | None => cd_finishReason c = finish_other
     end)
  /\ (fromOpenAiChunkChoice JSON_parse chunk jsonMode = Ok c ->
       match k_finish_reason chunk with
       | Some (String a r) =>
           ~ In (String a r) Object_prototype_keys ->
           cd_finishReason c = reduced_reason (String a r)
       | Some EmptyString | None => cd_finishReason c = finish_unknown
       end)
  /\ finish_other <> finish_unknown.
Proof.
  split; [|split].
  - intros H. rewrite (fromOpenAiChoice_finishReason _ _ _ H).
    destruct (c_finish_reason choice) as [r|]; [|reflexivity].
    intros Hout. apply finishReasonMap_reduced, Hout.
  - intros H. rewrite (fromOpenAiChunkChoice_finishReason _ _ _ H).
    destruct (k_finish_reason chunk) as [[|a r]|]; try reflexivity.
    intros Hout. apply finishReasonMap_reduced, Hout.
  - discriminate.
Qed.

(** C5. A non-streaming choice without tool calls reduces, in JSON mode,
    to a single data part holding the value [JSON.parse] gives for the
    message content, and throws the parser's exception when the content
    does not parse; out of JSON mode it reduces to a single text part
    holding the content. *)
Theorem choice_content_by_json_mode (choice : Choice) :
  m_tool_calls (c_message choice) = None
    \/ m_tool_calls (c_message choice) = Some [] ->
  let reason := default finish_other (c_finish_reason choice ≫= finishReasonMap) in
  let c := m_content (c_message choice) in
  (forall v, JSON_parse (to_text c) = Some v ->
     fromOpenAiChoice JSON_parse choice true
       = Ok (candidate (c_index choice) reason [dataPart v]))
  /\ (JSON_parse (to_text c) = None ->
       fromOpenAiChoice JSON_parse choice true = Throw SyntaxError)
  /\ fromOpenAiChoice JSON_parse choice false
       = Ok (candidate (c_index choice) reason [textPart c]).
Proof.
  intros Hcalls reason c. unfold fromOpenAiChoice, content_part, parse_or_throw.
  fold reason. fold c.
  destruct Hcalls as [-> | ->]; simpl.
  all: split; [|split]; [intros v -> | intros -> |]; reflexivity.
Qed.

(** C10. An empty tool-call list is read differently by the two paths:
    the streaming path returns it as the content, which is then empty; the
    non-streaming path takes the single text or data part branch, as it
    does when there is no list at all. *)
Theorem empty_tool_call_list (chunk : ChunkChoice) (choice : Choice) (jsonMode : bool) :
  (m_tool_calls (k_delta chunk) = Some [] ->
     exists c, fromOpenAiChunkChoice JSON_parse chunk jsonMode = Ok c
               /\ content (cd_message c) = [])
  /\ (m_tool_calls (c_message choice) = Some [] ->
       let reason := default finish_other (c_finish_reason choice ≫= finishReasonMap) in
       fromOpenAiChoice JSON_parse choice false
         = Ok (candidate (c_index choice) reason [textPart (m_content (c_message choice))])
       /\ (forall v, JSON_parse (to_text (m_content (c_message choice))) = Some v ->
             fromOpenAiChoice JSON_parse choice true
               = Ok (candidate (c_index choice) reason [dataPart v]))).
Proof.
  split.
  - intros Hcalls. unfold fromOpenAiChunkChoice. rewrite Hcalls. simpl.
    eexists. split; reflexivity.
  - intros Hcalls reason. unfold fromOpenAiChoice, content_part, parse_or_throw.
    rewrite Hcalls. simpl. split; [reflexivity|].
    intros v ->. reflexivity.
Qed.

End Reducer.

Section Builder.

Variable JSON_stringify : JsValue -> option string.

(** *** The stripping loop *)

Lemma kept_idem (o : option BodyValue) : kept (kept o) = kept o.
Proof.
  destruct o as [v|]; simpl; [|reflexivity].
  destruct (strippable v) eqn:Hv; simpl; [reflexivity|].
  rewrite Hv. reflexivity.
Qed.

Lemma strip_key_lookup (body : gmap string BodyValue) (key k : string) :
  strip_key body key !! k = if decide (key = k) then kept (body !! k) else body !! k.
Proof.
  unfold strip_key.
  destruct (decide (key = k)) as [->|Hne].
  - destruct (body !! k) as [v|] eqn:Hk; simpl.
    + destruct (strippable v); [apply lookup_delete_eq | exact Hk].
    + apply lookup_delete_eq.
  - destruct (strippable _); [|reflexivity].
    apply lookup_delete_ne. exact Hne.
Qed.

Lemma fold_strip_key_lookup (keys : list string) (body : gmap string BodyValue)
    (k : string) :
  fold_left strip_key keys body !! k
    = if decide (k ∈ keys) then kept (body !! k) else body !! k.
Proof.
  revert body. induction keys as [|key keys IH]; intros body; simpl.
  - destruct (decide (k ∈ [])) as [Hin|_]; [|reflexivity].
    apply elem_of_nil in Hin. destruct Hin.
  - rewrite IH, strip_key_lookup.
    destruct (decide (key = k)) as [->|Hne].
    + rewrite kept_idem.
      destruct (decide (k ∈ k :: keys)) as [_|Hout]; [|exfalso; apply Hout; left].
      destruct (decide (k ∈ keys)); reflexivity.
    + destruct (decide (k ∈ keys)) as [Hin|Hout].
      * destruct (decide (k ∈ key :: keys)) as [_|Hout]; [reflexivity|].
        exfalso. apply Hout. right. exact Hin.
      * destruct (decide (k ∈ key :: keys)) as [Hin|_]; [|reflexivity].
        apply elem_of_cons in Hin. destruct Hin as [->|Hin]; contradiction.
Qed.

(** The loop deletes exactly the fields whose value is falsy or an empty
    array. *)
Lemma strip_fields_lookup (body : gmap string BodyValue) (k : string) :
  strip_fields body !! k = kept (body !! k).
Proof.
  unfold strip_fields. rewrite fold_strip_key_lookup.
  destruct (decide (k ∈ map fst (map_to_list body))) as [_|Hout]; [reflexivity|].
  destruct (body !! k) as [v|] eqn:Hk; [|reflexivity].
  exfalso. apply Hout. apply list_elem_of_In, in_map_iff. exists (k, v).
  split; [reflexivity|]. apply list_elem_of_In, elem_of_map_to_list. exact Hk.
Qed.

(** *** The body before stripping *)

Lemma initial_body_model mapped msgs request :
  initial_body mapped msgs request !! "model" = Some (BString mapped).
Proof. unfold initial_body. rewrite list_to_map_cons. apply lookup_insert_eq. Qed.

Lemma initial_body_messages mapped msgs request :
  initial_body mapped msgs request !! "messages" = Some (BMessages msgs).
Proof.
  unfold initial_body. rewrite !list_to_map_cons.
  rewrite lookup_insert_ne by discriminate. apply lookup_insert_eq.
Qed.


Lemma initial_body_response_format mapped msgs request :
  initial_body mapped msgs request !! "response_format" = None.
Proof.
  unfold initial_body. rewrite !list_to_map_cons.
  rewrite !(lookup_insert_ne _ _ "response_format") by discriminate.
  apply lookup_empty.
Qed.

(** The negotiation touches no field but [response_format]. *)
Lemma negotiate_format_other model mapped response_format body body' key :
  negotiate_format model mapped response_format body = Ok body' ->
  key <> "response_format" -> body' !! key = body !! key.
Proof.
  unfold negotiate_format. intros H Hkey.
  destruct response_format as [f|]; [|congruence].
  destruct (includes _ mapped); [|congruence].
  destruct f, model as [m|]; try discriminate.
  all: destruct (declares_output m _); try discriminate.
  all: injection H as <-; apply lookup_insert_ne; congruence.
Qed.

(** The steps a successful build went through. *)
Lemma unstripped_body_Ok modelName request body :
  unstripped_body JSON_stringify modelName request = Ok body ->
  exists model msgs,
    match SUPPORTED_GPT_MODELS modelName with
    | Own m => model = Some m
    | Inherited => model = None
    | Missing => False
    end
    /\ toOpenAiMessages JSON_stringify (messages request)
         (config_field visualDetailLevel request) = Ok msgs
    /\ negotiate_format model
         (mappedModelName (config_field version request) (model ≫= ref_version) modelName)
         (output_format request)
         (initial_body
            (mappedModelName (config_field version request) (model ≫= ref_version) modelName)
            msgs request) = Ok body.
Proof.
  unfold unstripped_body. intros H.
  destruct (SUPPORTED_GPT_MODELS modelName) as [m| |]; simpl in H; try discriminate.
  all: destruct (toOpenAiMessages _ _ _) as [msgs|e]; simpl in H; try discriminate.
  - exists (Some m), msgs. auto.
  - exists None, msgs. auto.
Qed.

Lemma toOpenAiRequestBody_Ok modelName request body :
  toOpenAiRequestBody JSON_stringify modelName request = Ok body ->
  exists unstripped,
    unstripped_body JSON_stringify modelName request = Ok unstripped
    /\ body = strip_fields unstripped.
Proof.
  unfold toOpenAiRequestBody. intros H.
  destruct (unstripped_body _ _ _) as [b|e]; simpl in H; [|discriminate].
  exists b. split; congruence.
Qed.

Lemma or_else_truthy (a : option string) (b : string) :
  string_truthy b = true -> string_truthy (or_else a b) = true.
Proof.
  intros Hb. unfold or_else. destruct a as [s|]; [|exact Hb].
  destruct (string_truthy s) eqn:Hs; assumption.
Qed.

(** A key of the registry, own or inherited, is not the empty string. *)
Lemma registry_key_truthy (modelName : string) :
  SUPPORTED_GPT_MODELS modelName <> Missing -> string_truthy modelName = true.
Proof. destruct modelName; [intros H; exfalso; apply H|]; reflexivity. Qed.

(** C1, as the code has it. For a supported model whose messages
    convert, a requested output format is an error exactly inside the
    allow-list: when the resolved version is in the allow-list and the
    descriptor does not list the format, the build throws; when the resolved
    version is outside the allow-list and the descriptor lists the format,
    the build succeeds and the body carries no response-format directive. *)
Theorem format_gate_inside_allow_list (modelName : string) (model : ModelReference)
    (request : GenerateRequest) (f : OutputFormat)
    (msgs : list ChatCompletionMessageParam) :
  SUPPORTED_GPT_MODELS modelName = Own model ->
  toOpenAiMessages JSON_stringify (messages request)
    (config_field visualDetailLevel request) = Ok msgs ->
  output_format request = Some f ->
  let mapped :=
    mappedModelName (config_field version request) (ref_version model) modelName in
  (includes MODELS_SUPPORTING_OPENAI_RESPONSE_FORMAT mapped = true ->
   declares_output model (format_name f) = false ->
   toOpenAiRequestBody JSON_stringify modelName request
     = Throw (UnsupportedOutputFormat (format_name f)))
  /\ (includes MODELS_SUPPORTING_OPENAI_RESPONSE_FORMAT mapped = false ->
       declares_output model (format_name f) = true ->
       exists body,
         toOpenAiRequestBody JSON_stringify modelName request = Ok body
         /\ body !! "response_format" = None).
Proof.
  intros Hmodel Hmsgs Hformat mapped.
  unfold toOpenAiRequestBody, unstripped_body.
  rewrite Hmodel, Hformat. cbn [bind]. rewrite Hmsgs.
  cbn [bind mbind option_bind]. fold mapped. unfold negotiate_format.
  split; intros Hlist Hdecl; rewrite Hlist.
  - destruct f; cbn [format_name] in Hdecl |- *; try rewrite Hdecl; reflexivity.
  - cbn [bind]. eexists. split; [reflexivity|].
    rewrite strip_fields_lookup, initial_body_response_format. reflexivity.
Qed.

(** C6, as the code has it. The [model] field of a body built for a
    supported model is the request's version override when that is a
    non-empty string, otherwise the descriptor's version when that is a
    non-empty string, otherwise the model name. *)
Theorem effective_model_version (modelName : string) (model : ModelReference)
    (request : GenerateRequest) (body : gmap string BodyValue) :
  SUPPORTED_GPT_MODELS modelName = Own model ->
  toOpenAiRequestBody JSON_stringify modelName request = Ok body ->
  body !! "model" =
    Some (BString
            match config_field version request with
            | Some (String c v) => String c v
            | Some EmptyString | None =>
                match ref_version model with
                | Some (String c v) => String c v
                | Some EmptyString | None => modelName
                end
            end).
Proof.
  intros Hmodel Hbody.
  destruct (toOpenAiRequestBody_Ok _ _ _ Hbody) as (unstripped & Hun & ->).
  destruct (unstripped_body_Ok _ _ _ Hun) as (model' & msgs & Hlook & _ & Hneg).
  rewrite Hmodel in Hlook. subst model'. simpl in Hneg.
  rewrite strip_fields_lookup.
  rewrite (negotiate_format_other _ _ _ _ _ "model" Hneg) by discriminate.
  rewrite initial_body_model. simpl.
  assert (Hname : string_truthy modelName = true).
  { apply registry_key_truthy. rewrite Hmodel. discriminate. }
  unfold strippable. simpl.
  unfold mappedModelName at 1.
  rewrite (or_else_truthy _ _ (or_else_truthy (ref_version model) _ Hname)). simpl.
  unfold mappedModelName, or_else.
  destruct (config_field version request) as [[|c v]|]; simpl;
    destruct (ref_version model) as [[|c' v']|]; reflexivity.
Qed.


End Builder.

Section RoundTrip.

Variable JSON_parse : string -> option JsValue.
Variable JSON_stringify : JsValue -> option string.

Lemma Message_text_text_message (r : string) (texts : list string) :
  Message_text (text_message r texts) = String.concat "" texts.
Proof.
  unfold Message_text, text_message. simpl. rewrite map_map. simpl.
  rewrite map_id. reflexivity.
Qed.

Lemma text_message_no_toolRequest (r : string) (texts : list string) :
  omap toolRequest (content (text_message r texts)) = [].
Proof. simpl. induction texts as [|t texts IH]; [reflexivity|exact IH]. Qed.

Lemma text_parts_to_content (texts : list string) (visualDetail : VisualDetailLevel) :
  Forall (fun t => t <> "") texts ->
  map_result (fun part => toOpenAiTextAndMedia part visualDetail)
             (map (fun t => textPart (Str t)) texts)
    = Ok (map ContentText texts).
Proof.
  induction 1 as [|t texts Ht _ IH]; [reflexivity|].
  simpl. unfold toOpenAiTextAndMedia at 1. simpl.
  destruct t as [|c t]; [congruence|]. simpl.
  rewrite IH. reflexivity.
Qed.

(** One text-only message gives one vendor message with the same text. *)
Lemma toOpenAiMessage_text (r : string) (texts : list string)
    (visualDetail : VisualDetailLevel) :
  r = "system" \/ r = "model" \/ (r = "user" /\ Forall (fun t => t <> "") texts) ->
  exists v,
    toOpenAiMessage JSON_stringify (text_message r texts) visualDetail = Ok [v]
    /\ vendor_text v = String.concat "" texts.
Proof.
  intros [-> | [-> | [-> Htexts]]]; unfold toOpenAiMessage; simpl.
  - eexists. split; [reflexivity|]. apply Message_text_text_message.
  - pose proof (text_message_no_toolRequest "model" texts) as Hnone.
    simpl in Hnone. rewrite Hnone. simpl.
    eexists. split; [reflexivity|]. apply Message_text_text_message.
  - rewrite (text_parts_to_content texts visualDetail Htexts). simpl.
    eexists. split; [reflexivity|]. simpl. rewrite map_map. simpl.
    rewrite map_id. reflexivity.
Qed.

Lemma echo_reduced (t : string) :
  exists c, fromOpenAiChoice JSON_parse (echo t) false = Ok c
            /\ Message_text (cd_message c) = t.
Proof. eexists. split; reflexivity. Qed.

Lemma append_empty (a : string) : a ++ "" = a.
Proof.
  induction a as [|x a IH]; [reflexivity|].
  change (String x (a ++ "") = String x a). rewrite IH. reflexivity.
Qed.

Lemma append_append (a b c : string) : (a ++ b) ++ c = a ++ (b ++ c).
Proof.
  induction a as [|x a IH]; [reflexivity|].
  change (String x ((a ++ b) ++ c) = String x (a ++ (b ++ c))).
  rewrite IH. reflexivity.
Qed.

Lemma join_cons (t : string) (ts : list string) :
  String.concat "" (t :: ts) = t ++ String.concat "" ts.
Proof. destruct ts; [symmetry; apply append_empty | reflexivity]. Qed.

Lemma join_app (ts us : list string) :
  String.concat "" (ts ++ us)%list = String.concat "" ts ++ String.concat "" us.
Proof.
  induction ts as [|t ts IH]; [reflexivity|].
  rewrite <- app_comm_cons, !join_cons, IH, append_append. reflexivity.
Qed.

Lemma vendor_texts_all_texts (texts : list (string * list string))
    (vendor : list ChatCompletionMessageParam) :
  Forall2 (fun m v => vendor_text v = String.concat "" (snd m)) texts vendor ->
  vendor_texts vendor = String.concat "" (all_texts texts).
Proof.
  unfold vendor_texts, all_texts.
  induction 1 as [|m v texts vendor Hv _ IH]; [reflexivity|].
  cbn [map concat]. rewrite join_cons, join_app, Hv, IH. reflexivity.
Qed.

Lemma push_text_messages (texts : list (string * list string))
    (visualDetail : VisualDetailLevel) :
  Forall (fun m => fst m = "system" \/ fst m = "model"
                   \/ (fst m = "user" /\ Forall (fun t => t <> "") (snd m))) texts ->
  exists vendor,
    push_messages JSON_stringify
      (map (fun m => text_message (fst m) (snd m)) texts) visualDetail = Ok vendor
    /\ Forall2 (fun m v => vendor_text v = String.concat "" (snd m)) texts vendor.
Proof.
  induction 1 as [|[r ts] texts Hm _ IH]; simpl.
  - exists []. split; [reflexivity|constructor].
  - destruct IH as (vendor & Hvendor & Hall).
    destruct (toOpenAiMessage_text r ts visualDetail Hm) as (v & Hv & Htext).
    rewrite Hv. simpl. rewrite Hvendor. simpl.
    exists (v :: vendor). split; [reflexivity|].
    constructor; assumption.
Qed.

Lemma body_messages (modelName : string) (request : GenerateRequest)
    (body : gmap string BodyValue) (vendor : list ChatCompletionMessageParam) :
  toOpenAiMessages JSON_stringify (messages request)
    (config_field visualDetailLevel request) = Ok vendor ->
  toOpenAiRequestBody JSON_stringify modelName request = Ok body ->
  vendor <> [] ->
  body !! "messages" = Some (BMessages vendor).
Proof.
  intros Hvendor Hbody Hne.
  destruct (toOpenAiRequestBody_Ok _ _ _ _ Hbody) as (unstripped & Hun & ->).
  destruct (unstripped_body_Ok _ _ _ _ Hun) as (model & msgs & _ & Hmsgs & Hneg).
  rewrite Hvendor in Hmsgs. injection Hmsgs as <-.
  rewrite strip_fields_lookup.
  rewrite (negotiate_format_other _ _ _ _ _ "messages" Hneg) by discriminate.
  rewrite initial_body_messages. simpl.
  destruct vendor; [congruence|reflexivity].
Qed.

(** C8, as the code has it. Take a request whose messages are made of
    text parts only, with role [system], [model] or [user], the text parts
    of the [user] messages being non-empty. Its messages convert, one vendor
    message each, and these are the messages of any body built from the
    request. A vendor choice echoing the content of one of them reduces to
    a candidate whose text is the concatenation, in order, of the text
    parts of the message it came from; a choice echoing the content of all of
    them reduces to a candidate whose text is the concatenation, in order,
    of all the text parts of the request. *)
Theorem text_round_trip (request : GenerateRequest)
    (texts : list (string * list string)) :
  messages request = map (fun m => text_message (fst m) (snd m)) texts ->
  Forall (fun m => fst m = "system" \/ fst m = "model"
                   \/ (fst m = "user" /\ Forall (fun t => t <> "") (snd m))) texts ->
  exists vendor,
    toOpenAiMessages JSON_stringify (messages request)
      (config_field visualDetailLevel request) = Ok vendor
    /\ (forall modelName body,
          toOpenAiRequestBody JSON_stringify modelName request = Ok body ->
          vendor <> [] -> body !! "messages" = Some (BMessages vendor))
    /\ Forall2 (fun m v =>
                  exists c, fromOpenAiChoice JSON_parse (echo (vendor_text v)) false = Ok c
                            /\ Message_text (cd_message c) = String.concat "" (snd m))
         texts vendor
    /\ exists c, fromOpenAiChoice JSON_parse (echo (vendor_texts vendor)) false = Ok c
                 /\ Message_text (cd_message c) = String.concat "" (all_texts texts).
Proof.
  intros Hmessages Htexts.
  destruct (push_text_messages texts
              (default detail_auto (config_field visualDetailLevel request)) Htexts)
    as (vendor & Hvendor & Hall).
  assert (Hconv : toOpenAiMessages JSON_stringify (messages request)
                    (config_field visualDetailLevel request) = Ok vendor).
  { unfold toOpenAiMessages. rewrite Hmessages. exact Hvendor. }
  exists vendor. split; [exact Hconv|]. split; [|split].
  - intros modelName body Hbody Hne. eapply body_messages; eassumption.
  - eapply Forall2_impl; [exact Hall|].
    intros m v Htext. destruct (echo_reduced (vendor_text v)) as (c & Hc & Hc_text).
    exists c. split; [exact Hc|]. congruence.
  - destruct (echo_reduced (vendor_texts vendor)) as (c & Hc & Hc_text).
    exists c. split; [exact Hc|].
    rewrite Hc_text. apply vendor_texts_all_texts. exact Hall.
Qed.

End RoundTrip.

Section Runner.

Variable JSON_parse : string -> option JsValue.
Variable JSON_stringify : JsValue -> option string.

Lemma fromOpenAiChunkChoice_delivers (choice : ChunkChoice) (c : CandidateData) :
  fromOpenAiChunkChoice JSON_parse choice false = Ok c ->
  delivers choice {| chunk_index := cd_index c;
                     chunk_content := content (cd_message c) |}.
Proof.
  unfold fromOpenAiChunkChoice, delivers.
  destruct (m_tool_calls (k_delta choice)) as [calls|]; simpl.
  - destruct (map_result _ calls); simpl; [|discriminate].
    intros [= <-]. simpl. split; [reflexivity|discriminate].
  - intros [= <-]. simpl. split; reflexivity.
Qed.

Lemma fromOpenAiChunkChoice_well_formed (choice : ChunkChoice) :
  well_formed choice ->
  exists c, fromOpenAiChunkChoice JSON_parse choice false = Ok c.
Proof.
  unfold well_formed, fromOpenAiChunkChoice. intros Hwf.
  destruct (m_tool_calls (k_delta choice)) as [calls|]; simpl.
  - destruct (map_fromOpenAiToolCall_present JSON_parse calls (Hwf calls eq_refl))
      as (parts & -> & _).
    simpl. eexists. reflexivity.
  - eexists. reflexivity.
Qed.

(** One chunk: the callback receives what was sent before and then, in
    order, the deliveries for an initial run of the choices; all of them
    unless a conversion throws. *)
Lemma forEach_choice_sent (cs : list ChunkChoice)
    (sent : list GenerateResponseChunkData) :
  exists done rest new r,
    forEach_choice JSON_parse cs sent = ((sent ++ new)%list, r)
    /\ cs = (done ++ rest)%list
    /\ Forall2 delivers done new
    /\ (r = Ok tt -> rest = [])
    /\ (Forall well_formed cs -> r = Ok tt).
Proof.
  revert sent. induction cs as [|choice cs IH]; intros sent; simpl.
  - exists [], [], [], (Ok tt). rewrite app_nil_r.
    repeat split; auto.
  - destruct (fromOpenAiChunkChoice JSON_parse choice false) as [c|e] eqn:Hc.
    + destruct (IH (sent ++ [{| chunk_index := cd_index c;
                                chunk_content := content (cd_message c) |}])%list)
        as (done & rest & new & r & Hrun & -> & Hall & Hok & Hwf).
      exists (choice :: done), rest,
        ({| chunk_index := cd_index c;
            chunk_content := content (cd_message c) |} :: new), r.
      rewrite Hrun, <- app_assoc. simpl.
      repeat split; auto.
      * constructor; [|exact Hall]. apply fromOpenAiChunkChoice_delivers, Hc.
      * intros Hcs. apply Hwf. inversion Hcs; assumption.
    + exists [], (choice :: cs), [], (Throw e). rewrite app_nil_r.
      repeat split; auto; try constructor; try discriminate.
      intros Hcs. inversion Hcs as [|? ? Hchoice _]; subst.
      destruct (fromOpenAiChunkChoice_well_formed choice Hchoice) as (c & Hc').
      congruence.
Qed.

(** The whole stream, likewise. *)
Lemma for_await_sent (chunks : list ChatCompletionChunk)
    (sent : list GenerateResponseChunkData) :
  exists done rest new r,
    for_await JSON_parse chunks sent = ((sent ++ new)%list, r)
    /\ stream_choices chunks = (done ++ rest)%list
    /\ Forall2 delivers done new
    /\ (r = Ok tt -> rest = [])
    /\ (Forall well_formed (stream_choices chunks) -> r = Ok tt).
Proof.
  revert sent. induction chunks as [|chunk chunks IH]; intros sent; simpl.
  - exists [], [], [], (Ok tt). rewrite app_nil_r.
    repeat split; auto.
  - unfold stream_choices. simpl. fold (stream_choices chunks).
    destruct (forEach_choice_sent (default [] (chunk_choices chunk)) sent)
      as (done1 & rest1 & new1 & r1 & Hrun1 & Hcs1 & Hall1 & Hok1 & Hwf1).
    rewrite Hrun1. rewrite Hcs1 in *. destruct r1 as [[]|e].
    + rewrite (Hok1 eq_refl), app_nil_r in *.
      destruct (IH (sent ++ new1)%list)
        as (done & rest & new & r & Hrun & Hcs & Hall & Hok & Hwf).
      exists (done1 ++ done)%list, rest, (new1 ++ new)%list, r.
      rewrite Hrun, Hcs, !app_assoc.
      repeat split; auto.
      * apply Forall2_app; assumption.
      * intros Hall'. apply Hwf. rewrite Hcs.
        rewrite <- app_assoc in Hall'. apply Forall_app in Hall'. apply Hall'.
    + exists done1, (rest1 ++ stream_choices chunks)%list, new1, (Throw e).
      rewrite app_assoc.
      repeat split; auto; try discriminate.
      intros Hall'. apply Forall_app in Hall'. destruct Hall' as [Hall' _].
      specialize (Hwf1 Hall'). discriminate.
Qed.

(** C9. With a streaming callback, each chunk choice is converted with
    [jsonMode] left at [false], whatever output format the request asks
    for: the callback receives, in arrival order, one delivery per choice
    for an initial run of the stream's choices (all of them when no tool
    call is malformed), and the delivery for a choice without tool calls
    is a single text part holding the delta's content. Only the final
    completion is reduced in the JSON mode of the request: once the stream
    has been delivered, the runner returns the reduction of each choice of
    the final completion with [jsonMode] on exactly when the request's
    output format is [json], together with its usage and the completion
    itself. *)
Theorem streaming_delivers_text (name_ : string) (client : OpenAI)
    (request : GenerateRequest) (body : gmap string BodyValue) :
  toOpenAiRequestBody JSON_stringify name_ request = Ok body ->
  let streamed :=
    stream_choices (fst (stream client (<["stream" := BBool true]> body))) in
  let final := snd (stream client (<["stream" := BBool true]> body)) in
  let sent := fst (gptRunner JSON_parse JSON_stringify name_ client request true) in
  (exists done rest, streamed = (done ++ rest)%list /\ Forall2 delivers done sent)
  /\ (Forall well_formed streamed -> Forall2 delivers streamed sent)
  /\ (Forall well_formed streamed ->
      snd (gptRunner JSON_parse JSON_stringify name_ client request true) =
        bind (map_result
                (fun choice =>
                   fromOpenAiChoice JSON_parse choice
                     match output_format request with
                     | Some format_json => true
                     | Some format_text | Some format_media | None => false
                     end)
                (choices final))
          (fun candidates_ =>
             Ok {| response_candidates := candidates_;
                   response_usage :=
                     {| inputTokens := usage final ≫= prompt_tokens;
                        outputTokens := usage final ≫= completion_tokens;
                        totalTokens := usage final ≫= total_tokens |};
                   response_custom := final |})).
Proof.
  intros Hbody streamed final sent. subst streamed final sent.
  unfold gptRunner. rewrite Hbody.
  destruct (stream client (<["stream" := BBool true]> body)) as [chunks final].
  destruct (for_await_sent chunks [])
    as (done & rest & new & r & Hrun & Hcs & Hall & Hok & Hwf).
  rewrite Hrun. simpl in *.
  assert (Hsent : forall res,
             fst (match r with
                  | Ok _ => (new, toResponse JSON_parse request final)
                  | Throw e => (new, res e)
                  end) = new) by (intros; destruct r; reflexivity).
  rewrite Hsent. split; [|split].
  - exists done, rest. split; assumption.
  - intros Hall'. rewrite Hcs, (Hok (Hwf Hall')), app_nil_r. exact Hall.
  - intros Hall'. rewrite (Hwf Hall'). reflexivity.
Qed.

End Runner.

(** * The properties at concrete inputs

    The translator run with the reference JSON reader and printer. *)

Import Examples.

(** A closed call returns: evaluate it, then name what it returned. *)
Ltac returns_ok :=
  match goal with
  | |- exists b, ?r = Ok b =>
      let H := fresh "H" in
      assert (H : match r with Ok _ => True | Throw _ => False end)
        by (vm_compute; exact I);
      destruct r as [b|]; [exists b; reflexivity | destruct H]
  end.

(** Arguments [{"x":1}] reduce to the structured value. *)
Lemma tool_call_x_is_1 :
  fromOpenAiToolCall JSON.parse (tool_call (Str x_is_1))
    = Ok (toolRequestPart {| tr_name := Some "lookup";
                             tr_ref := Some "call_0";
                             tr_input := JsObject [("x", JsNumber one)] |}).
Proof.
  destruct (tool_call_input_parsed_or_raw JSON.parse (tool_call (Str x_is_1)) _
              eq_refl eq_refl) as (input & Hcall & Hparsed & _).
  rewrite Hcall.
  rewrite (Hparsed x_is_1 (JsObject [("x", JsNumber one)]) eq_refl eq_refl).
  reflexivity.
Defined.

(** Arguments [not json] come back as the string itself. *)
Example tool_call_not_json :
  fromOpenAiToolCall JSON.parse (tool_call (Str "not json"))
    = Ok (toolRequestPart {| tr_name := Some "lookup";
                             tr_ref := Some "call_0";
                             tr_input := JsString "not json" |}).
Proof. reflexivity. Qed.

Lemma bare_tool_call_throws :
  fromOpenAiToolCall JSON.parse bare_tool_call = Throw MalformedToolCall
  /\ fromOpenAiChoice JSON.parse
       (choice_of (Some vendor_tool_calls) Null
          (Some [tool_call (Str x_is_1); bare_tool_call])) false
     = Throw MalformedToolCall.
Proof.
  destruct (missing_function_is_malformed JSON.parse bare_tool_call eq_refl)
    as (Hcall & Hchoice & _).
  split; [exact Hcall|].
  apply (Hchoice _ [tool_call (Str x_is_1); bare_tool_call]); [reflexivity|].
  right. left. reflexivity.
Defined.

Lemma finish_reasons_of_examples :
  (exists c, fromOpenAiChoice JSON.parse
               (choice_of (Some vendor_tool_calls) (Str "done") None) false = Ok c
             /\ cd_finishReason c = finish_stop)
  /\ (exists c, fromOpenAiChunkChoice JSON.parse
                  (chunk_choice_of (Some "eos") (Str "do") None) false = Ok c
                /\ cd_finishReason c = finish_other).
Proof.
  split; eexists; (split; [reflexivity|]).
  - apply (proj1 (finishReason_table JSON.parse
                    (choice_of (Some vendor_tool_calls) (Str "done") None)
                    (chunk_choice_of (Some "eos") (Str "do") None) false _)
             eq_refl).
    cbn. intuition discriminate.
  - apply (proj1 (proj2 (finishReason_table JSON.parse
                           (choice_of (Some vendor_tool_calls) (Str "done") None)
                           (chunk_choice_of (Some "eos") (Str "do") None) false _))
             eq_refl).
    cbn. intuition discriminate.
Defined.

(** C4 as stated fails: on the streaming path the finish reason [''] is
    present and outside the table, and the candidate's reason is [unknown],
    not [other]. *)
Lemma empty_finish_reason_is_unknown :
  k_finish_reason (chunk_choice_of (Some "") (Str "Hi") None) = Some ""
  /\ fromOpenAiChunkChoice JSON.parse (chunk_choice_of (Some "") (Str "Hi") None) false
     = Ok (candidate 0 finish_unknown [textPart (Str "Hi")])
  /\ finish_unknown <> finish_other.
Proof. repeat split. discriminate. Qed.

(** The absent reason on the two paths, and the name of an inherited
    member used as a reason. *)
Example absent_finish_reason :
  fromOpenAiChoice JSON.parse (choice_of None (Str "Hi") None) false
    = Ok (candidate 0 finish_other [textPart (Str "Hi")])
  /\ fromOpenAiChunkChoice JSON.parse (chunk_choice_of None (Str "Hi") None) false
     = Ok (candidate 0 finish_unknown [textPart (Str "Hi")])
  /\ fromOpenAiChoice JSON.parse (choice_of (Some "constructor") (Str "Hi") None) false
     = Ok (candidate 0 (finish_member "constructor") [textPart (Str "Hi")]).
Proof. repeat split. Qed.

(** Content [{"a":1}] in JSON mode reduces to the structured value. *)
Lemma json_mode_a_is_1 :
  fromOpenAiChoice JSON.parse (choice_of (Some vendor_stop) (Str a_is_1) None) true
    = Ok (candidate 0 finish_stop [dataPart (JsObject [("a", JsNumber one)])]).
Proof.
  exact (proj1 (choice_content_by_json_mode JSON.parse
                  (choice_of (Some vendor_stop) (Str a_is_1) None)
                  (or_introl eq_refl))
           (JsObject [("a", JsNumber one)]) eq_refl).
Defined.

(** Content that is not JSON makes the JSON-mode reduction throw. *)
Example json_mode_not_json :
  fromOpenAiChoice JSON.parse (choice_of (Some vendor_stop) (Str "not json") None) true
    = Throw SyntaxError.
Proof. reflexivity. Qed.

Lemma empty_list_on_both_paths :
  (exists c, fromOpenAiChunkChoice JSON.parse
               (chunk_choice_of None (Str "Hi") (Some [])) false = Ok c
             /\ content (cd_message c) = [])
  /\ fromOpenAiChoice JSON.parse (choice_of (Some vendor_stop) (Str "Hi") (Some [])) false
     = Ok (candidate 0 finish_stop [textPart (Str "Hi")]).
Proof.
  destruct (empty_tool_call_list JSON.parse
              (chunk_choice_of None (Str "Hi") (Some []))
              (choice_of (Some vendor_stop) (Str "Hi") (Some [])) false)
    as (Hchunk & Hchoice).
  split; [exact (Hchunk eq_refl) | exact (proj1 (Hchoice eq_refl))].
Defined.

(** Asking [gpt-4] for JSON under the version override [gpt-4o], which is
    in the allow-list, is an error; asking [gpt-4] itself for text is not,
    and the body carries no directive. *)
Lemma gpt4_format_requests :
  toOpenAiRequestBody JSON.stringify "gpt-4"
    (request_with greeting (Some "gpt-4o") (Some format_json))
    = Throw (UnsupportedOutputFormat "json")
  /\ exists body,
       toOpenAiRequestBody JSON.stringify "gpt-4"
         (request_with greeting None (Some format_text)) = Ok body
       /\ body !! "response_format" = None.
Proof.
  split.
  - destruct (toOpenAiMessages JSON.stringify greeting None) as [msgs|e] eqn:Hmsgs;
      [|discriminate].
    exact (proj1 (format_gate_inside_allow_list JSON.stringify "gpt-4" gpt4
                    (request_with greeting (Some "gpt-4o") (Some format_json))
                    format_json msgs eq_refl Hmsgs eq_refl)
             eq_refl eq_refl).
  - destruct (toOpenAiMessages JSON.stringify greeting None) as [msgs|e] eqn:Hmsgs;
      [|discriminate].
    exact (proj2 (format_gate_inside_allow_list JSON.stringify "gpt-4" gpt4
                    (request_with greeting None (Some format_text))
                    format_text msgs eq_refl Hmsgs eq_refl)
             eq_refl eq_refl).
Defined.

(** C1 as stated fails: [gpt-4] is outside the allow-list, a format is
    requested, and the build returns a body instead of throwing. *)
Lemma text_format_dropped_for_gpt4 :
  SUPPORTED_GPT_MODELS "gpt-4" = Own gpt4
  /\ output_format (request_with greeting None (Some format_text)) = Some format_text
  /\ includes MODELS_SUPPORTING_OPENAI_RESPONSE_FORMAT
       (mappedModelName None (ref_version gpt4) "gpt-4") = false
  /\ (exists body,
        toOpenAiRequestBody JSON.stringify "gpt-4"
          (request_with greeting None (Some format_text)) = Ok body)
  /\ toOpenAiRequestBody JSON.stringify "gpt-4"
       (request_with greeting None (Some format_text))
     <> Throw (UnsupportedOutputFormat "text").
Proof.
  assert (Hbody : exists body,
             toOpenAiRequestBody JSON.stringify "gpt-4"
               (request_with greeting None (Some format_text)) = Ok body)
    by returns_ok.
  destruct Hbody as [body Hbody].
  repeat split; [exists body; exact Hbody | rewrite Hbody; discriminate].
Qed.

(** A version override is what the body names as its model. *)
Lemma override_names_model :
  exists body,
    toOpenAiRequestBody JSON.stringify "gpt-4o"
      (request_with greeting (Some "gpt-4o-2024-05-13") None) = Ok body
    /\ body !! "model" = Some (BString "gpt-4o-2024-05-13").
Proof.
  assert (Hbody : exists body,
             toOpenAiRequestBody JSON.stringify "gpt-4o"
               (request_with greeting (Some "gpt-4o-2024-05-13") None) = Ok body)
    by returns_ok.
  destruct Hbody as [body Hbody]. exists body. split; [exact Hbody|].
  exact (effective_model_version JSON.stringify "gpt-4o" gpt4o
           (request_with greeting (Some "gpt-4o-2024-05-13") None) body
           eq_refl Hbody).
Defined.

(** C6 as stated fails: the request carries the version override [''],
    and the body names the model [gpt-4o], not the override. *)
Lemma empty_version_override_ignored :
  config_field version (request_with greeting (Some "") None) = Some ""
  /\ match toOpenAiRequestBody JSON.stringify "gpt-4o"
             (request_with greeting (Some "") None) with
     | Ok body => body !! "model" = Some (BString "gpt-4o")
                  /\ body !! "model" <> Some (BString "")
     | Throw _ => False
     end.
Proof.
  split; [reflexivity|].
  vm_compute. split; [reflexivity|discriminate].
Qed.


(** A temperature of [0] is falsy, and goes with the unset fields. *)
Example zero_temperature_stripped :
  match toOpenAiRequestBody JSON.stringify "gpt-4o"
          {| messages := greeting;
             config := Some {| version := None;
                               temperature := Some {| mant := 0; expo := 0 |};
                               maxOutputTokens := Some {| mant := 256; expo := 0 |};
                               topP := None; stopSequences := Some [];
                               frequencyPenalty := None; logitBias := Some [];
                               logProbs := Some false; presencePenalty := None;
                               seed := None; topLogProbs := None; user := Some "";
                               visualDetailLevel := None |};
             tools := Some [];
             output := None;
             candidates := None |} with
  | Ok body =>
      map fst (map_to_list body) = ["model"; "messages"; "max_tokens"; "logit_bias"]
  | Throw _ => False
  end.
Proof. vm_compute. reflexivity. Qed.

Example body_keys :
  match toOpenAiRequestBody JSON.stringify "gpt-4o" (request_with greeting None None) with
  | Ok body =>
      map_to_list body =
        [ ("model", BString "gpt-4o");
          ("messages",
           BMessages [ SystemParam "Be brief.";
                       UserParam [ContentText "Hello, "; ContentText "world"];
                       AssistantParam "Hi" ]) ]
  | Throw _ => False
  end.
Proof. vm_compute. reflexivity. Qed.

(** The greeting goes round: each of its messages comes back with its
    text, and the whole comes back as the whole. *)
Lemma greeting_round_trip :
  exists vendor,
    toOpenAiMessages JSON.stringify greeting None = Ok vendor
    /\ Forall2 (fun m v =>
                  exists c, fromOpenAiChoice JSON.parse (echo (vendor_text v)) false = Ok c
                            /\ Message_text (cd_message c) = String.concat "" (snd m))
         greeting_texts vendor
    /\ exists c, fromOpenAiChoice JSON.parse (echo (vendor_texts vendor)) false = Ok c
                 /\ Message_text (cd_message c) = "Be brief.Hello, worldHi".
Proof.
  destruct (text_round_trip JSON.parse JSON.stringify
              (request_with greeting None None) greeting_texts eq_refl)
    as (vendor & Hvendor & _ & Hall & Hwhole).
  - constructor; [left; reflexivity|].
    constructor; [right; right; split; [reflexivity|]|].
    + repeat constructor; discriminate.
    + constructor; [right; left; reflexivity|]. constructor.
  - exists vendor. repeat split; assumption.
Defined.

(** C8 as stated fails: the request's only message is a user message
    with the single text part [{ text: '' }], and no body is built from
    it. Nor does a text part go round under the role [tool]: such a message
    contributes no vendor message at all. *)
Lemma empty_text_part_rejected :
  messages (request_with empty_text None None) = [text_message "user" [""]]
  /\ toOpenAiMessages JSON.stringify empty_text None = Throw UnsupportedPart
  /\ toOpenAiRequestBody JSON.stringify "gpt-4o" (request_with empty_text None None)
     = Throw UnsupportedPart
  /\ toOpenAiMessages JSON.stringify [text_message "tool" ["42"]] None = Ok [].
Proof. repeat split. Qed.

(** A request for JSON, streamed: the callback is handed the two
    fragments of the text as text parts; the final response holds the
    parsed value. *)
Lemma fragments_delivered_as_text :
  Forall2 delivers (stream_choices fragments)
    (fst (gptRunner JSON.parse JSON.stringify "gpt-4o" client
            (request_with greeting None (Some format_json)) true))
  /\ snd (gptRunner JSON.parse JSON.stringify "gpt-4o" client
            (request_with greeting None (Some format_json)) true)
     = Ok {| response_candidates :=
               [candidate 0 finish_stop [dataPart (JsObject [("a", JsNumber one)])]];
             response_usage :=
               {| inputTokens := None; outputTokens := None; totalTokens := None |};
             response_custom := completion |}.
Proof.
  assert (Hbody : exists body,
             toOpenAiRequestBody JSON.stringify "gpt-4o"
               (request_with greeting None (Some format_json)) = Ok body)
    by returns_ok.
  destruct Hbody as [body Hbody].
  destruct (streaming_delivers_text JSON.parse JSON.stringify "gpt-4o" client
              (request_with greeting None (Some format_json)) body Hbody)
    as (_ & Hsent & Hfinal).
  assert (Hwf : Forall well_formed (stream_choices fragments))
    by (repeat constructor; intros calls H; discriminate).
  split; [exact (Hsent Hwf)|].
  rewrite (Hfinal Hwf). reflexivity.
Defined.

Example streaming_run :
  gptRunner JSON.parse JSON.stringify "gpt-4o" client
    (request_with greeting None (Some format_json)) true
  = ([ {| chunk_index := 0; chunk_content := [textPart (Str "{")] |};
       {| chunk_index := 0;
          chunk_content := [textPart (Str (JSON.quoted "a" ++ ":1}"))] |} ],
     Ok {| response_candidates :=
             [candidate 0 finish_stop [dataPart (JsObject [("a", JsNumber one)])]];
           response_usage :=
             {| inputTokens := None; outputTokens := None; totalTokens := None |};
           response_custom := completion |}).
Proof. vm_compute. reflexivity. Qed.

(** * Further properties of the request builder *)

Section Messages.

Variable JSON_stringify : JsValue -> option string.

Lemma toOpenAIRole_cases (r : string) :
  (r = "user" /\ toOpenAIRole r = Ok "user")
  \/ (r = "model" /\ toOpenAIRole r = Ok "assistant")
  \/ (r = "system" /\ toOpenAIRole r = Ok "system")
  \/ (r = "tool" /\ toOpenAIRole r = Ok "tool")
  \/ (~ known_role r /\ toOpenAIRole r = Throw (UnmappableRole r)).
Proof.
  unfold toOpenAIRole, known_role.
  destruct (String.eqb_spec r "user") as [->|Hu]; [left; split; reflexivity|].
  destruct (String.eqb_spec r "model") as [->|Hm];
    [right; left; split; reflexivity|].
  destruct (String.eqb_spec r "system") as [->|Hs];
    [right; right; left; split; reflexivity|].
  destruct (String.eqb_spec r "tool") as [->|Ht];
    [right; right; right; left; split; reflexivity|].
  right. right. right. right. split; [|reflexivity].
  intros [H|[H|[H|H]]]; contradiction.
Qed.

(** The content items of a user message. *)
Lemma content_items (parts : list Part) (visualDetail : VisualDetailLevel) :
  (Forall has_text_or_media parts /\
   exists items,
     map_result (fun part => toOpenAiTextAndMedia part visualDetail) parts = Ok items
     /\ Forall2 (fun part item =>
                   match text part with
                   | Str (String c t) => item = ContentText (String c t)
                   | _ => exists m, media part = Some m
                                    /\ item = ContentImageUrl (url m) visualDetail
                   end) parts items)
  \/ (~ Forall has_text_or_media parts /\
      map_result (fun part => toOpenAiTextAndMedia part visualDetail) parts
        = Throw UnsupportedPart).
Proof.
  induction parts as [|part parts IH].
  - left. split; [constructor|]. exists []. split; [reflexivity|constructor].
  - cbn [map_result]. unfold toOpenAiTextAndMedia at 1 3.
    destruct (truthy (text part)) eqn:Htext.
    + destruct IH as [(Hall & items & -> & Hitems) | (Hnot & ->)].
      * left. split; [constructor; [left; exact Htext | exact Hall]|].
        eexists. split; [reflexivity|]. constructor; [|exact Hitems].
        destruct (text part) as [| |[|c t]]; try discriminate. reflexivity.
      * right. split; [|reflexivity].
        intros H. apply Hnot. inversion H; assumption.
    + destruct (media part) as [m|] eqn:Hmedia.
      * destruct IH as [(Hall & items & -> & Hitems) | (Hnot & ->)].
        -- left. split; [constructor; [right; congruence | exact Hall]|].
           eexists. split; [reflexivity|]. constructor; [|exact Hitems].
           destruct (text part) as [| |[|c t]]; try discriminate; eauto.
        -- right. split; [|reflexivity].
           intros H. apply Hnot. inversion H; assumption.
      * right. split; [|reflexivity].
        intros H. inversion H as [|? ? [Ht|Hm] _]; subst; congruence.
Qed.

(** What each role makes of a message. *)
Lemma toOpenAiMessage_cases (m : MessageData) (visualDetail : VisualDetailLevel) :
  (role m = "user" /\
   toOpenAiMessage JSON_stringify m visualDetail =
     bind (map_result (fun part => toOpenAiTextAndMedia part visualDetail) (content m))
          (fun parts => Ok [UserParam parts]))
  \/ (role m = "system" /\
      toOpenAiMessage JSON_stringify m visualDetail = Ok [SystemParam (Message_text m)])
  \/ (role m = "model" /\
      toOpenAiMessage JSON_stringify m visualDetail =
        Ok [match map (toToolCall JSON_stringify) (omap toolRequest (content m)) with
            | [] => AssistantParam (Message_text m)
            | call :: calls => AssistantToolCallsParam (call :: calls)
            end])
  \/ (role m = "tool" /\
      toOpenAiMessage JSON_stringify m visualDetail =
        Ok (map (toToolMessage JSON_stringify) (Message_toolResponseParts m)))
  \/ (~ known_role (role m) /\
      toOpenAiMessage JSON_stringify m visualDetail = Throw (UnmappableRole (role m))).
Proof.
  unfold toOpenAiMessage.
  destruct (toOpenAIRole_cases (role m))
    as [[Hr ->]|[[Hr ->]|[[Hr ->]|[[Hr ->]|[Hr ->]]]]]; cbn [bind].
  - left. split; [exact Hr|reflexivity].
  - right. right. left. split; [exact Hr|].
    change (String.eqb "assistant" "user") with false.
    change (String.eqb "assistant" "system") with false.
    change (String.eqb "assistant" "assistant") with true. cbv iota.
    destruct (map (toToolCall JSON_stringify) (omap toolRequest (content m)));
      reflexivity.
  - right. left. split; [exact Hr|reflexivity].
  - right. right. right. left. split; [exact Hr|reflexivity].
  - right. right. right. right. split; [exact Hr|reflexivity].
Qed.

(** A message converts, or fails with the exception of its role or of
    its parts. *)
Lemma toOpenAiMessage_outcome (m : MessageData) (visualDetail : VisualDetailLevel) :
  (convertible m /\
   exists vendor, toOpenAiMessage JSON_stringify m visualDetail = Ok vendor
                  /\ length vendor = vendor_count m)
  \/ (~ convertible m /\
      ((~ known_role (role m) /\
        toOpenAiMessage JSON_stringify m visualDetail = Throw (UnmappableRole (role m)))
       \/ (role m = "user" /\ ~ Forall has_text_or_media (content m) /\
           toOpenAiMessage JSON_stringify m visualDetail = Throw UnsupportedPart))).
Proof.
  unfold convertible, vendor_count.
  destruct (toOpenAiMessage_cases m visualDetail)
    as [[Hr ->]|[[Hr ->]|[[Hr ->]|[[Hr ->]|[Hr ->]]]]].
  - destruct (content_items (content m) visualDetail)
      as [(Hall & items & -> & _) | (Hnot & ->)].
    + left. split; [split; [left; exact Hr | intros _; exact Hall]|].
      eexists. split; [reflexivity|]. rewrite Hr. reflexivity.
    + right. split; [intros [_ H]; apply Hnot, H, Hr|].
      right. repeat split; assumption.
  - left. split; [split; [right; right; left; exact Hr | rewrite Hr; discriminate]|].
    eexists. split; [reflexivity|]. rewrite Hr. reflexivity.
  - left. split; [split; [right; left; exact Hr | rewrite Hr; discriminate]|].
    eexists. split; [reflexivity|]. rewrite Hr. reflexivity.
  - left. split; [split; [right; right; right; exact Hr | rewrite Hr; discriminate]|].
    eexists. split; [reflexivity|]. rewrite Hr. cbn [String.eqb Ascii.eqb Bool.eqb].
    rewrite length_map. reflexivity.
  - right. split; [intros [H _]; contradiction|]. left. split; [exact Hr|reflexivity].
Qed.

(** X1. A list of messages converts exactly when each message has one of
    the four roles and each part of each user message has text or media;
    it then gives one vendor message per message, except that a tool message
    gives one per tool response. *)
Theorem messages_convert_iff (msgs : list MessageData)
    (visualDetail : option VisualDetailLevel) :
  (Forall convertible msgs <->
   exists vendor, toOpenAiMessages JSON_stringify msgs visualDetail = Ok vendor)
  /\ (forall vendor,
        toOpenAiMessages JSON_stringify msgs visualDetail = Ok vendor ->
        length vendor = list_sum (map vendor_count msgs)).
Proof.
  unfold toOpenAiMessages.
  generalize (default detail_auto visualDetail) as v. intros v.
  induction msgs as [|m msgs [IHiff IHlen]]; cbn [push_messages map list_sum].
  - split; [split; [intros _; exists []; reflexivity | constructor]|].
    intros vendor [= <-]. reflexivity.
  - destruct (toOpenAiMessage_outcome m v)
      as [(Hm & vs & -> & Hvs) | (Hm & [[_ ->] | (_ & _ & ->)])]; cbn [bind].
    + destruct (push_messages JSON_stringify msgs v) as [more|e]; cbn [bind].
      * split.
        -- split; [intros _; eexists; reflexivity|].
           intros _. constructor; [exact Hm|]. apply IHiff. eexists. reflexivity.
        -- intros vendor [= <-]. rewrite length_app, Hvs, (IHlen more eq_refl).
           reflexivity.
      * split; [|discriminate]. split.
        -- intros H. inversion H as [|? ? _ Hrest]; subst.
           apply IHiff in Hrest. destruct Hrest as [? ?]. discriminate.
        -- intros [? ?]. discriminate.
    + split; [|discriminate]. split.
      * intros H. inversion H; contradiction.
      * intros [? ?]. discriminate.
    + split; [|discriminate]. split.
      * intros H. inversion H; contradiction.
      * intros [? ?]. discriminate.
Qed.

(** X2. When a list of messages does not convert, the exception is that
    of the first message that does not: [UnmappableRole] with its role when
    the role is not one of the four, [UnsupportedPart] when it is a user
    message with a part that has neither text nor media. *)
Theorem messages_first_failure (msgs : list MessageData)
    (visualDetail : option VisualDetailLevel) (e : Exception) :
  toOpenAiMessages JSON_stringify msgs visualDetail = Throw e ->
  exists before m after,
    msgs = (before ++ m :: after)%list
    /\ Forall convertible before
    /\ ((~ known_role (role m) /\ e = UnmappableRole (role m))
        \/ (role m = "user" /\ ~ Forall has_text_or_media (content m)
            /\ e = UnsupportedPart)).
Proof.
  unfold toOpenAiMessages.
  generalize (default detail_auto visualDetail) as v. intros v.
  induction msgs as [|m msgs IH]; cbn [push_messages]; [discriminate|].
  destruct (toOpenAiMessage_outcome m v)
    as [(Hm & vs & -> & _) | (Hm & [[Hr ->] | (Hr & Hparts & ->)])]; cbn [bind].
  - destruct (push_messages JSON_stringify msgs v) as [more|e'] eqn:Hmore;
      cbn [bind]; [discriminate|].
    intros [= ->].
    destruct (IH eq_refl) as (before & m' & after & -> & Hbefore & Hcase).
    exists (m :: before), m', after. split; [reflexivity|].
    split; [constructor; assumption | exact Hcase].
  - intros [= <-]. exists [], m, msgs. split; [reflexivity|].
    split; [constructor|]. left. split; [exact Hr|reflexivity].
  - intros [= <-]. exists [], m, msgs. split; [reflexivity|].
    split; [constructor|]. right. repeat split; assumption.
Qed.

(** X3. Conversion goes message by message: the conversion of two lists
    one after the other is the conversion of the first followed by that of
    the second, and fails with the first exception met. *)
Theorem messages_append (first second : list MessageData)
    (visualDetail : option VisualDetailLevel) :
  toOpenAiMessages JSON_stringify (first ++ second)%list visualDetail =
    bind (toOpenAiMessages JSON_stringify first visualDetail)
      (fun vendor1 =>
         bind (toOpenAiMessages JSON_stringify second visualDetail)
           (fun vendor2 => Ok (vendor1 ++ vendor2)%list)).
Proof.
  unfold toOpenAiMessages.
  generalize (default detail_auto visualDetail) as v. intros v.
  induction first as [|m first IH]; cbn [push_messages app bind].
  - destruct (push_messages JSON_stringify second v); reflexivity.
  - destruct (toOpenAiMessage JSON_stringify m v) as [vs|e]; cbn [bind];
      [|reflexivity].
    rewrite IH.
    destruct (push_messages JSON_stringify first v) as [v1|e]; cbn [bind];
      [|reflexivity].
    destruct (push_messages JSON_stringify second v) as [v2|e]; cbn [bind];
      [|reflexivity].
    rewrite app_assoc. reflexivity.
Qed.

Lemma toOpenAiMessages_single (m : MessageData)
    (visualDetail : option VisualDetailLevel) :
  toOpenAiMessages JSON_stringify [m] visualDetail
    = toOpenAiMessage JSON_stringify m (default detail_auto visualDetail).
Proof.
  unfold toOpenAiMessages. cbn [push_messages].
  destruct (toOpenAiMessage _ _ _) as [vs|e]; cbn [bind]; [|reflexivity].
  rewrite app_nil_r. reflexivity.
Qed.

(** X4. A tool message gives one vendor tool message per tool-response
    part, in order, and nothing for its other parts. Each carries the
    reference of its response, or the empty string when there is none, and
    the output itself when it is a string, its JSON text otherwise. *)
Theorem tool_message_responses (m : MessageData)
    (visualDetail : option VisualDetailLevel) :
  role m = "tool" ->
  exists vendor,
    toOpenAiMessages JSON_stringify [m] visualDetail = Ok vendor
    /\ Forall2 (fun r v =>
                  exists c,
                    v = ToolParam (match ts_ref r with Some i => i | None => "" end) c
                    /\ match ts_output r with
                       | JsString t => c = Str t
                       | output => c = match JSON_stringify output with
                                       | Some t => Str t
                                       | None => Undefined
                                       end
                       end)
         (omap toolResponse (content m)) vendor.
Proof.
  intros Hr. rewrite toOpenAiMessages_single.
  destruct (toOpenAiMessage_cases m (default detail_auto visualDetail))
    as [[H _]|[[H _]|[[H _]|[[_ ->]|[H _]]]]];
    try (rewrite Hr in H; discriminate).
  2: { exfalso. apply H. right. right. right. exact Hr. }
  eexists. split; [reflexivity|].
  unfold Message_toolResponseParts.
  induction (omap toolResponse (content m)) as [|r rs IH]; cbn [map]; constructor.
  - eexists. split; [reflexivity|].
    unfold stringify_value. destruct (ts_output r); reflexivity.
  - exact IH.
Qed.

(** X5. A model message with no tool-request part gives one assistant
    message holding its text. With at least one, it gives one assistant
    message holding a tool call per tool-request part, in order, and its
    text is not sent. *)
Theorem assistant_message_tool_calls (m : MessageData)
    (visualDetail : option VisualDetailLevel) :
  role m = "model" ->
  (omap toolRequest (content m) = []
   /\ toOpenAiMessages JSON_stringify [m] visualDetail
      = Ok [AssistantParam (Message_text m)])
  \/ (omap toolRequest (content m) <> []
      /\ exists calls,
           toOpenAiMessages JSON_stringify [m] visualDetail
             = Ok [AssistantToolCallsParam calls]
           /\ Forall2 (fun r call =>
                         call = {| tc_id := Some (match tr_ref r with
                                                  | Some i => i
                                                  | None => ""
                                                  end);
                                   tc_function :=
                                     Some {| fn_name := tr_name r;
                                             fn_arguments :=
                                               match JSON_stringify (tr_input r) with
                                               | Some t => Str t
                                               | None => Undefined
                                               end |} |})
                (omap toolRequest (content m)) calls).
Proof.
  intros Hr. rewrite toOpenAiMessages_single.
  destruct (toOpenAiMessage_cases m (default detail_auto visualDetail))
    as [[H _]|[[H _]|[[_ ->]|[[H _]|[H _]]]]];
    try (rewrite Hr in H; discriminate).
  2: { exfalso. apply H. right. left. exact Hr. }
  destruct (omap toolRequest (content m)) as [|r rs]; cbn [map].
  - left. split; reflexivity.
  - right. split; [discriminate|]. eexists. split; [reflexivity|].
    constructor; [reflexivity|].
    induction rs as [|r' rs IH]; cbn [map]; constructor; [reflexivity|exact IH].
Qed.

(** X6. A user message whose parts all have text or media gives one user
    message with one content item per part, in order: a text item for a part
    with non-empty text, whatever else the part holds, and otherwise an
    image item with the part's URL and the requested detail level, [auto]
    when none is requested. *)
Theorem user_message_items (m : MessageData)
    (visualDetail : option VisualDetailLevel) :
  role m = "user" ->
  Forall has_text_or_media (content m) ->
  exists items,
    toOpenAiMessages JSON_stringify [m] visualDetail = Ok [UserParam items]
    /\ Forall2 (fun part item =>
                  match text part with
                  | Str (String c t) => item = ContentText (String c t)
                  | _ => exists media_, media part = Some media_
                         /\ item = ContentImageUrl (url media_)
                                     (match visualDetail with
                                      | Some level => level
                                      | None => detail_auto
                                      end)
                  end) (content m) items.
Proof.
  intros Hr Hparts. rewrite toOpenAiMessages_single.
  destruct (toOpenAiMessage_cases m (default detail_auto visualDetail))
    as [[_ ->]|[[H _]|[[H _]|[[H _]|[H _]]]]];
    try (rewrite Hr in H; discriminate).
  2: { exfalso. apply H. left. exact Hr. }
  destruct (content_items (content m) (default detail_auto visualDetail))
    as [(_ & items & -> & Hitems) | (Hnot & _)]; [|contradiction].
  exists items. split; [reflexivity|].
  destruct visualDetail; exact Hitems.
Qed.

End Messages.

(** * Further properties of the response reducer *)

Section Reduction.

Variable JSON_parse : string -> option JsValue.
Variable JSON_stringify : JsValue -> option string.

(** The conversion of a list of tool calls: one part per call when every
    call carries its function payload, [MalformedToolCall] otherwise. *)
Lemma map_fromOpenAiToolCall_outcome (calls : list ToolCall) :
  (Forall (fun call => tc_function call <> None) calls /\
   exists parts,
     map_result (fromOpenAiToolCall JSON_parse) calls = Ok parts
     /\ Forall2 (fun call part =>
                   exists r, part = toolRequestPart r /\ tr_ref r = tc_id call)
          calls parts)
  \/ (~ Forall (fun call => tc_function call <> None) calls /\
      map_result (fromOpenAiToolCall JSON_parse) calls = Throw MalformedToolCall).
Proof.
  induction calls as [|call calls IH].
  - left. split; [constructor|]. exists []. split; [reflexivity|constructor].
  - cbn [map_result]. unfold fromOpenAiToolCall at 1 3.
    destruct (tc_function call) as [f|] eqn:Hf; cbn [bind].
    + destruct IH as [(Hall & parts & -> & Hparts) | (Hnot & ->)]; cbn [bind].
      * left. split; [constructor; [congruence | exact Hall]|].
        eexists. split; [reflexivity|]. constructor; [|exact Hparts].
        eexists. split; reflexivity.
      * right. split; [|reflexivity].
        intros H. apply Hnot. inversion H; assumption.
    + right. split; [|reflexivity].
      intros H. inversion H; congruence.
Qed.

(** X7. A tool request goes round: the tool calls an assistant message
    is given for its tool requests reduce, as the tool calls of a choice, to
    the same tool requests in the same order, with an absent reference
    become the empty string. This holds when [JSON.parse] reads back what
    [JSON.stringify] prints for each input, the input without JSON text being
    [undefined]; the choice's content and the JSON mode play no part. *)
Theorem tool_requests_round_trip (requests : list ToolRequest) (index : Z)
    (reason : option string) (c : MaybeString) (jsonMode : bool) :
  requests <> [] ->
  Forall (fun r => match JSON_stringify (tr_input r) with
                   | Some t => t <> "" /\ JSON_parse t = Some (tr_input r)
                   | None => tr_input r = JsUndefined
                   end) requests ->
  fromOpenAiChoice JSON_parse
    {| c_index := index;
       c_finish_reason := reason;
       c_message := {| m_content := c;
                       m_tool_calls :=
                         Some (map (toToolCall JSON_stringify) requests) |} |}
    jsonMode
  = Ok (candidate index (default finish_other (reason ≫= finishReasonMap))
          (map (fun r => toolRequestPart
                           {| tr_name := tr_name r;
                              tr_ref := Some (match tr_ref r with
                                              | Some i => i
                                              | None => ""
                                              end);
                              tr_input := tr_input r |}) requests)).
Proof.
  intros Hne Hall. unfold fromOpenAiChoice, toolRequestParts_of. cbn [c_message m_tool_calls].
  assert (Hmap : map_result (fromOpenAiToolCall JSON_parse)
                   (map (toToolCall JSON_stringify) requests)
                 = Ok (map (fun r => toolRequestPart
                                       {| tr_name := tr_name r;
                                          tr_ref := Some (nullish_empty (tr_ref r));
                                          tr_input := tr_input r |}) requests)).
  { clear Hne. induction Hall as [|r rs Hr _ IH]; [reflexivity|].
    cbn [map map_result]. rewrite IH.
    unfold fromOpenAiToolCall, toToolCall, stringify_value.
    cbn [tc_function tc_id fn_name fn_arguments].
    destruct (JSON_stringify (tr_input r)) as [t|].
    - destruct Hr as [Ht Hparse]. destruct t as [|a t]; [congruence|].
      cbn [truthy string_truthy or_empty]. rewrite Hparse. reflexivity.
    - cbn [truthy to_value]. rewrite Hr. reflexivity. }
  rewrite Hmap. cbn [bind].
  destruct requests as [|r rs]; [congruence|]. reflexivity.
Qed.

(** The conversion of tool calls that all carry their function payload,
    part by part. *)
Lemma map_fromOpenAiToolCall_parts (calls : list ToolCall) :
  Forall (fun call => tc_function call <> None) calls ->
  exists parts,
    map_result (fromOpenAiToolCall JSON_parse) calls = Ok parts
    /\ Forall2 (fun call part =>
                  exists f,
                    tc_function call = Some f
                    /\ part = toolRequestPart
                                {| tr_name := fn_name f;
                                   tr_ref := tc_id call;
                                   tr_input :=
                                     match fn_arguments f with
                                     | Str (String a t) =>
                                         match JSON_parse (String a t) with
                                         | Some v => v
                                         | None => JsString (String a t)
                                         end
                                     | arguments => to_value arguments
                                     end |})
         calls parts.
Proof.
  induction 1 as [|call calls Hcall _ IH].
  - exists []. split; [reflexivity|constructor].
  - destruct IH as (parts & Hparts & Hall).
    cbn [map_result]. unfold fromOpenAiToolCall at 1.
    destruct (tc_function call) as [f|] eqn:Hf; [|congruence].
    cbn [bind]. rewrite Hparts. cbn [bind].
    eexists. split; [reflexivity|]. constructor; [|exact Hall].
    exists f. split; [first [exact Hf | reflexivity]|].
    unfold to_value.
    destruct (fn_arguments f) as [| |[|a t]]; reflexivity.
Qed.

(** X8. When a choice lists tool calls, at least one, each with its
    function payload, its reduction does not depend on the JSON mode nor on
    the message content, which is never parsed: in every JSON mode and for
    every content, the content of the candidate is the same list of parts,
    one tool-request part per call, in order, with the name of the call's
    function, the identifier of the call as reference and, as input, the
    parsed arguments or the arguments themselves. *)
Theorem choice_tool_calls_only (call : ToolCall) (calls : list ToolCall) :
  Forall (fun call => tc_function call <> None) (call :: calls) ->
  exists parts,
    Forall2 (fun call part =>
               exists f,
                 tc_function call = Some f
                 /\ part = toolRequestPart
                             {| tr_name := fn_name f;
                                tr_ref := tc_id call;
                                tr_input :=
                                  match fn_arguments f with
                                  | Str (String a t) =>
                                      match JSON_parse (String a t) with
                                      | Some v => v
                                      | None => JsString (String a t)
                                      end
                                  | arguments => to_value arguments
                                  end |})
      (call :: calls) parts
    /\ forall (index : Z) (reason : option string) (c : MaybeString) (jsonMode : bool),
         fromOpenAiChoice JSON_parse
           {| c_index := index;
              c_finish_reason := reason;
              c_message := {| m_content := c;
                              m_tool_calls := Some (call :: calls) |} |}
           jsonMode
         = Ok (candidate index (default finish_other (reason ≫= finishReasonMap)) parts).
Proof.
  intros Hall.
  destruct (map_fromOpenAiToolCall_parts (call :: calls) Hall)
    as (parts & Hparts & Hrel).
  exists parts. split; [exact Hrel|].
  intros index reason c jsonMode.
  unfold fromOpenAiChoice, toolRequestParts_of. cbn [c_message m_tool_calls].
  rewrite Hparts. cbn [bind].
  inversion Hrel; subst. reflexivity.
Qed.

(** What a non-streaming reduction comes to. *)
Lemma fromOpenAiChoice_outcome (choice : Choice) (jsonMode : bool) :
  let reason := default finish_other (c_finish_reason choice ≫= finishReasonMap) in
  (exists call calls parts,
     m_tool_calls (c_message choice) = Some (call :: calls)
     /\ Forall (fun call => tc_function call <> None) (call :: calls)
     /\ length parts = S (length calls)
     /\ fromOpenAiChoice JSON_parse choice jsonMode
        = Ok (candidate (c_index choice) reason parts))
  \/ (exists calls,
        m_tool_calls (c_message choice) = Some calls
        /\ ~ Forall (fun call => tc_function call <> None) calls
        /\ fromOpenAiChoice JSON_parse choice jsonMode = Throw MalformedToolCall)
  \/ ((m_tool_calls (c_message choice) = None \/ m_tool_calls (c_message choice) = Some [])
      /\ ((jsonMode = false
           /\ fromOpenAiChoice JSON_parse choice jsonMode
              = Ok (candidate (c_index choice) reason
                      [textPart (m_content (c_message choice))]))
          \/ (jsonMode = true
              /\ exists v, JSON_parse (to_text (m_content (c_message choice))) = Some v
                 /\ fromOpenAiChoice JSON_parse choice jsonMode
                    = Ok (candidate (c_index choice) reason [dataPart v]))
          \/ (jsonMode = true
              /\ JSON_parse (to_text (m_content (c_message choice))) = None
              /\ fromOpenAiChoice JSON_parse choice jsonMode = Throw SyntaxError))).
Proof.
  intros reason. subst reason.
  unfold fromOpenAiChoice, toolRequestParts_of, content_part, parse_or_throw.
  destruct (m_tool_calls (c_message choice)) as [calls|] eqn:Hcalls.
  - destruct (map_fromOpenAiToolCall_outcome calls)
      as [(Hall & parts & -> & Hparts) | (Hnot & ->)]; cbn [bind].
    + destruct Hparts as [|call part calls parts Hpart Hparts].
      * right. right. split; [right; reflexivity|].
        destruct jsonMode; [|left; split; reflexivity].
        destruct (JSON_parse _) as [v|] eqn:Hv; cbn [bind].
        -- right. left. split; [reflexivity|]. exists v. split; reflexivity.
        -- right. right. repeat split; reflexivity.
      * left. exists call, calls, (part :: parts).
        repeat split; try assumption.
        cbn [length]. f_equal. symmetry. eapply Forall2_length; eassumption.
    + right. left. exists calls. repeat split; assumption.
  - right. right. split; [left; reflexivity|]. cbn [bind].
    destruct jsonMode; [|left; split; reflexivity].
    destruct (JSON_parse _) as [v|] eqn:Hv; cbn [bind].
    + right. left. split; [reflexivity|]. exists v. split; reflexivity.
    + right. right. repeat split; reflexivity.
Qed.

(** X9. Every candidate a reduction returns has the index of its choice
    and a message of role [model]. On the non-streaming path its content is
    never empty; on the streaming path it is empty exactly when the
    [tool_calls] of the delta is an empty array. *)
Theorem candidate_shape (choice : Choice) (chunk : ChunkChoice) (jsonMode : bool)
    (c : CandidateData) :
  (fromOpenAiChoice JSON_parse choice jsonMode = Ok c ->
     cd_index c = c_index choice
     /\ role (cd_message c) = "model"
     /\ content (cd_message c) <> [])
  /\ (fromOpenAiChunkChoice JSON_parse chunk jsonMode = Ok c ->
       cd_index c = k_index chunk
       /\ role (cd_message c) = "model"
       /\ (content (cd_message c) = [] <-> m_tool_calls (k_delta chunk) = Some [])).
Proof.
  split.
  - intros Hc.
    destruct (fromOpenAiChoice_outcome choice jsonMode)
      as [(call & calls & parts & _ & _ & Hlen & H)
         | [(calls & _ & _ & H)
           | (_ & [(_ & H) | [(_ & v & _ & H) | (_ & _ & H)]])]];
      rewrite H in Hc; try discriminate; injection Hc as <-;
      repeat split; try discriminate.
    destruct parts; [discriminate Hlen|discriminate].
  - unfold fromOpenAiChunkChoice, toolRequestParts_of, content_part.
    destruct (m_tool_calls (k_delta chunk)) as [calls|].
    + destruct (map_fromOpenAiToolCall_outcome calls)
        as [(_ & parts & -> & Hparts) | (_ & ->)]; cbn [bind]; [|discriminate].
      intros [= <-]. cbn. repeat split.
      * intros ->. inversion Hparts. reflexivity.
      * intros [= ->]. inversion Hparts. reflexivity.
    + cbn [bind]. destruct jsonMode.
      * destruct (parse_or_throw JSON_parse _); cbn [bind]; [|discriminate].
        intros [= <-]. cbn. repeat split; discriminate.
      * cbn [bind]. intros [= <-]. cbn. repeat split; discriminate.
Qed.

(** X10. A non-streaming reduction throws in two cases only:
    [MalformedToolCall] when a tool call of the choice lacks its function
    payload, and [SyntaxError] when, in JSON mode and without tool calls,
    the content does not parse. So out of JSON mode a choice whose tool calls
    all carry their payload always reduces. *)
Theorem reduction_exceptions (choice : Choice) (jsonMode : bool) :
  (forall e,
     fromOpenAiChoice JSON_parse choice jsonMode = Throw e ->
     (e = MalformedToolCall /\ ~ well_formed_choice choice)
     \/ (e = SyntaxError /\ jsonMode = true
         /\ (m_tool_calls (c_message choice) = None
             \/ m_tool_calls (c_message choice) = Some [])
         /\ JSON_parse (to_text (m_content (c_message choice))) = None))
  /\ (well_formed_choice choice -> jsonMode = false ->
      exists c, fromOpenAiChoice JSON_parse choice jsonMode = Ok c).
Proof.
  unfold well_formed_choice.
  destruct (fromOpenAiChoice_outcome choice jsonMode)
    as [(call & calls & parts & _ & _ & _ & H)
       | [(calls & Hcalls & Hnot & H)
         | (Hnone & [(_ & H) | [(_ & v & _ & H) | (Hmode & Hparse & H)]])]];
    rewrite H; split; try discriminate; eauto.
  - intros e [= <-]. left. split; [reflexivity|].
    intros Hwf. apply Hnot, Hwf, Hcalls.
  - intros Hwf _. exfalso. apply Hnot, Hwf, Hcalls.
  - intros e [= <-]. right. repeat split; assumption.
  - intros _ Hfalse. congruence.
Qed.

End Reduction.

(** * Further properties of the request body *)

(** The lookup of a key in the object literal. *)
Ltac lookup_literal :=
  unfold initial_body; rewrite !list_to_map_cons;
  repeat (rewrite lookup_insert_ne by discriminate);
  first [apply lookup_insert_eq | apply lookup_empty].

Section Body.

Variable JSON_stringify : JsValue -> option string.

(** The directive the negotiation leaves in the body. *)
Lemma negotiate_format_directive model mapped response_format body body' :
  negotiate_format model mapped response_format body = Ok body' ->
  body !! "response_format" = None ->
  body' !! "response_format" =
    match response_format with
    | Some format_json =>
        if includes MODELS_SUPPORTING_OPENAI_RESPONSE_FORMAT mapped
        then Some (BResponseFormat "json_object") else None
    | Some format_text =>
        if includes MODELS_SUPPORTING_OPENAI_RESPONSE_FORMAT mapped
        then Some (BResponseFormat "text") else None
    | Some format_media | None => None
    end.
Proof.
  unfold negotiate_format. intros H Hnone.
  destruct response_format as [f|]; [|congruence].
  destruct (includes _ mapped); [|destruct f; congruence].
  destruct f, model as [m|]; try discriminate.
  all: destruct (declares_output m _); try discriminate.
  all: injection H as <-; apply lookup_insert_eq.
Qed.

Lemma negotiate_format_exception model mapped response_format body e :
  negotiate_format model mapped response_format body = Throw e ->
  (exists f, response_format = Some f /\ e = UnsupportedOutputFormat (format_name f))
  \/ (e = TypeError /\ model = None).
Proof.
  unfold negotiate_format. intros H.
  destruct response_format as [f|]; [|discriminate].
  destruct (includes _ mapped); [|discriminate].
  destruct f, model as [m|]; try destruct (declares_output m _);
    try discriminate; injection H as <-; eauto.
Qed.

Lemma push_messages_exception (msgs : list MessageData) (v : VisualDetailLevel)
    (e : Exception) :
  push_messages JSON_stringify msgs v = Throw e ->
  e = UnsupportedPart \/ exists r, e = UnmappableRole r.
Proof.
  induction msgs as [|m msgs IH]; cbn [push_messages]; [discriminate|].
  destruct (toOpenAiMessage_outcome JSON_stringify m v)
    as [(_ & vs & -> & _) | (_ & [[_ ->] | (_ & _ & ->)])]; cbn [bind].
  - destruct (push_messages JSON_stringify msgs v); cbn [bind]; [discriminate|].
    intros [= ->]. apply IH. reflexivity.
  - intros [= <-]. right. eexists. reflexivity.
  - intros [= <-]. left. reflexivity.
Qed.

(** The fields of a built body, read off the request. *)
Lemma built_body_fields (modelName : string) (request : GenerateRequest)
    (body : gmap string BodyValue) :
  toOpenAiRequestBody JSON_stringify modelName request = Ok body ->
  exists model msgs,
    match SUPPORTED_GPT_MODELS modelName with
    | Own m => model = Some m
    | Inherited => model = None
    | Missing => False
    end
    /\ toOpenAiMessages JSON_stringify (messages request)
         (config_field visualDetailLevel request) = Ok msgs
    /\ (forall key, key <> "response_format" ->
          body !! key =
            kept (initial_body
                    (mappedModelName (config_field version request)
                       (model ≫= ref_version) modelName) msgs request !! key))
    /\ body !! "response_format" =
         match output_format request with
         | Some format_json =>
             if includes MODELS_SUPPORTING_OPENAI_RESPONSE_FORMAT
                  (mappedModelName (config_field version request)
                     (model ≫= ref_version) modelName)
             then Some (BResponseFormat "json_object") else None
         | Some format_text =>
             if includes MODELS_SUPPORTING_OPENAI_RESPONSE_FORMAT
                  (mappedModelName (config_field version request)
                     (model ≫= ref_version) modelName)
             then Some (BResponseFormat "text") else None
         | Some format_media | None => None
         end.
Proof.
  intros Hbody.
  destruct (toOpenAiRequestBody_Ok _ _ _ _ Hbody) as (unstripped & Hun & ->).
  destruct (unstripped_body_Ok _ _ _ _ Hun) as (model & msgs & Hlook & Hmsgs & Hneg).
  exists model, msgs. split; [exact Hlook|]. split; [exact Hmsgs|]. split.
  - intros key Hkey. rewrite strip_fields_lookup.
    rewrite (negotiate_format_other _ _ _ _ _ key Hneg Hkey). reflexivity.
  - rewrite strip_fields_lookup.
    rewrite (negotiate_format_directive _ _ _ _ _ Hneg
               (initial_body_response_format _ _ _)).
    destruct (output_format request) as [[]|]; try reflexivity;
      destruct (includes _ _); reflexivity.
Qed.

Lemma kept_truthy_string (t : string) :
  string_truthy t = true -> kept (Some (BString t)) = Some (BString t).
Proof.
  intros Ht. unfold kept, strippable, falsy, empty_array. rewrite Ht. reflexivity.
Qed.

(** X11. Every body that is built names a model: its [model] field is a
    non-empty string, whatever the request and the model name. *)
Theorem body_names_model (modelName : string) (request : GenerateRequest)
    (body : gmap string BodyValue) :
  toOpenAiRequestBody JSON_stringify modelName request = Ok body ->
  exists version_, body !! "model" = Some (BString version_) /\ version_ <> "".
Proof.
  intros Hbody.
  destruct (built_body_fields _ _ _ Hbody) as (model & msgs & Hlook & _ & Hkeys & _).
  rewrite (Hkeys "model") by discriminate. rewrite initial_body_model.
  assert (Hname : string_truthy modelName = true).
  { apply registry_key_truthy. intros H. rewrite H in Hlook. exact Hlook. }
  pose proof (or_else_truthy (config_field version request) _
                (or_else_truthy (model ≫= ref_version) _ Hname)) as Hmapped.
  fold (mappedModelName (config_field version request) (model ≫= ref_version) modelName)
    in Hmapped.
  eexists. split.
  - apply kept_truthy_string. exact Hmapped.
  - intros Hempty. rewrite Hempty in Hmapped. discriminate.
Qed.

(** X12. A built body has no key besides the fifteen of the vendor
    request and [response_format]; in particular the builder never sets
    [stream]. *)
Theorem body_keys_known (modelName : string) (request : GenerateRequest)
    (body : gmap string BodyValue) (key : string) :
  toOpenAiRequestBody JSON_stringify modelName request = Ok body ->
  (is_Some (body !! key) -> In key body_keys_of_literal \/ key = "response_format")
  /\ body !! "stream" = None.
Proof.
  intros Hbody.
  destruct (built_body_fields _ _ _ Hbody) as (model & msgs & _ & _ & Hkeys & _).
  split.
  - intros [v Hv].
    destruct (decide (key = "response_format")) as [->|Hne]; [right; reflexivity|].
    left. rewrite (Hkeys key Hne) in Hv.
    destruct (decide (In key body_keys_of_literal)) as [Hin|Hout]; [exact Hin|].
    exfalso.
    assert (Hnone : initial_body
                      (mappedModelName (config_field version request)
                         (model ≫= ref_version) modelName) msgs request !! key = None).
    { unfold initial_body. apply not_elem_of_list_to_map_1.
      intros Hin. apply Hout. apply list_elem_of_In. exact Hin. }
    rewrite Hnone in Hv. discriminate.
  - rewrite (Hkeys "stream") by discriminate.
    replace (initial_body _ msgs request !! "stream") with (@None BodyValue);
      [reflexivity|]. symmetry. lookup_literal.
Qed.

(** X13. The generation options reach a built body under the vendor's
    field names, unchanged, each one unless its value is falsy or an empty
    array: [maxOutputTokens] as [max_tokens], [topP] as [top_p],
    [stopSequences] as [stop], [logProbs] and [topLogProbs] as [logprobs]
    and [top_logprobs], the number of candidates as [n], and so on. *)
Theorem options_under_vendor_names (modelName : string) (request : GenerateRequest)
    (body : gmap string BodyValue) :
  toOpenAiRequestBody JSON_stringify modelName request = Ok body ->
  body !! "temperature" = kept (Some (field BNumber (config_field temperature request)))
  /\ body !! "max_tokens"
       = kept (Some (field BNumber (config_field maxOutputTokens request)))
  /\ body !! "top_p" = kept (Some (field BNumber (config_field topP request)))
  /\ body !! "stop" = kept (Some (field BStrings (config_field stopSequences request)))
  /\ body !! "frequency_penalty"
       = kept (Some (field BNumber (config_field frequencyPenalty request)))
  /\ body !! "logit_bias"
       = kept (Some (field BLogitBias (config_field logitBias request)))
  /\ body !! "logprobs" = kept (Some (field BBool (config_field logProbs request)))
  /\ body !! "presence_penalty"
       = kept (Some (field BNumber (config_field presencePenalty request)))
  /\ body !! "seed" = kept (Some (field BNumber (config_field seed request)))
  /\ body !! "top_logprobs"
       = kept (Some (field BNumber (config_field topLogProbs request)))
  /\ body !! "user" = kept (Some (field BString (config_field user request)))
  /\ body !! "n" = kept (Some (field BNumber (candidates request))).
Proof.
  intros Hbody.
  destruct (built_body_fields _ _ _ Hbody) as (model & msgs & _ & _ & Hkeys & _).
  repeat split.
  all: rewrite Hkeys by discriminate; f_equal; lookup_literal.
Qed.

(** X14. The tool definitions of a request reach the body one for one, in
    order, as function tools with the same name and the input schema as
    parameters, whatever the model and whatever its descriptor says of tool
    support; without tool definitions the body has no [tools] key. *)
Theorem tools_reach_body (modelName : string) (request : GenerateRequest)
    (body : gmap string BodyValue) :
  toOpenAiRequestBody JSON_stringify modelName request = Ok body ->
  body !! "tools" =
    match tools request with
    | Some (tool :: more) =>
        Some (BTools (map (fun t => {| tool_name := td_name t;
                                       tool_parameters := td_inputSchema t |})
                        (tool :: more)))
    | Some [] | None => None
    end.
Proof.
  intros Hbody.
  destruct (built_body_fields _ _ _ Hbody) as (model & msgs & _ & _ & Hkeys & _).
  rewrite (Hkeys "tools") by discriminate.
  replace (initial_body _ msgs request !! "tools")
    with (Some (field BTools (option_map (map toOpenAiTool) (tools request))));
    [|symmetry; lookup_literal].
  destruct (tools request) as [[|tool more]|]; reflexivity.
Qed.

(** X15. Stripping is idempotent: stripping a stripped body changes
    nothing. *)
Theorem strip_fields_idempotent (body : gmap string BodyValue) :
  strip_fields (strip_fields body) = strip_fields body.
Proof.
  apply map_eq. intros key. rewrite !strip_fields_lookup. apply kept_idem.
Qed.

(** X16. The response-format directive of a built body follows from the
    requested format and the model the body names: [json_object] for [json]
    and [text] for [text] when that model is in the allow-list, no directive
    otherwise. *)
Theorem directive_follows_model (modelName : string) (request : GenerateRequest)
    (body : gmap string BodyValue) (version_ : string) :
  toOpenAiRequestBody JSON_stringify modelName request = Ok body ->
  body !! "model" = Some (BString version_) ->
  body !! "response_format" =
    match output_format request,
          includes MODELS_SUPPORTING_OPENAI_RESPONSE_FORMAT version_ with
    | Some format_json, true => Some (BResponseFormat "json_object")
    | Some format_text, true => Some (BResponseFormat "text")
    | _, _ => None
    end.
Proof.
  intros Hbody Hversion.
  destruct (built_body_fields _ _ _ Hbody)
    as (model & msgs & Hlook & _ & Hkeys & Hdirective).
  rewrite (Hkeys "model") in Hversion by discriminate.
  rewrite initial_body_model in Hversion.
  assert (Hname : string_truthy modelName = true).
  { apply registry_key_truthy. intros H. rewrite H in Hlook. exact Hlook. }
  pose proof (or_else_truthy (config_field version request) _
                (or_else_truthy (model ≫= ref_version) _ Hname)) as Hmapped.
  fold (mappedModelName (config_field version request) (model ≫= ref_version) modelName)
    in Hmapped.
  rewrite (kept_truthy_string _ Hmapped) in Hversion. injection Hversion as <-.
  rewrite Hdirective.
  destruct (output_format request) as [[]|]; try destruct (includes _ _); reflexivity.
Qed.

(** The registry, key by key. *)
Lemma registry_own (modelName : string) (model : ModelReference) :
  SUPPORTED_GPT_MODELS modelName = Own model ->
  (modelName = "gpt-4o" /\ model = gpt4o)
  \/ (modelName = "gpt-4o-mini" /\ model = gpt4oMini)
  \/ (modelName = "gpt-4-turbo" /\ model = gpt4Turbo)
  \/ (modelName = "gpt-4-vision" /\ model = gpt4Vision)
  \/ (modelName = "gpt-4" /\ model = gpt4)
  \/ (modelName = "gpt-3.5-turbo" /\ model = gpt35Turbo).
Proof.
  unfold SUPPORTED_GPT_MODELS.
  repeat match goal with
         | |- context [String.eqb modelName ?k] =>
             destruct (String.eqb_spec modelName k) as [->|?];
             [intros [= <-]; tauto|]
         end.
  destruct (includes _ _); discriminate.
Qed.

(** For a model's own name and versions, being in the allow-list and
    declaring [json] go together, and [text] is always declared. *)
Lemma own_version_gate (modelName : string) (model : ModelReference)
    (version_ : string) :
  SUPPORTED_GPT_MODELS modelName = Own model ->
  In version_ (modelName :: versions (info model)) ->
  includes MODELS_SUPPORTING_OPENAI_RESPONSE_FORMAT version_
    = declares_output model "json"
  /\ declares_output model "text" = true
  /\ ref_version model = None.
Proof.
  intros Hown Hin.
  destruct (registry_own _ _ Hown)
    as [[-> ->]|[[-> ->]|[[-> ->]|[[-> ->]|[[-> ->]|[-> ->]]]]]];
    cbn in Hin;
    repeat (destruct Hin as [<-|Hin]; [repeat split; reflexivity|]);
    destruct Hin.
Qed.

(** X17. For a supported model whose messages convert, asking for [json]
    or [text] is never an error when the request has no version override or
    one taken from the descriptor's own versions: the body is built, with
    the matching directive when the descriptor declares [json] output and
    with no directive when it does not. *)
Theorem own_versions_accept_formats (modelName : string) (model : ModelReference)
    (request : GenerateRequest) (msgs : list ChatCompletionMessageParam) :
  SUPPORTED_GPT_MODELS modelName = Own model ->
  toOpenAiMessages JSON_stringify (messages request)
    (config_field visualDetailLevel request) = Ok msgs ->
  (config_field version request = None
   \/ exists v, config_field version request = Some v
                /\ In v (versions (info model))) ->
  output_format request <> Some format_media ->
  exists body,
    toOpenAiRequestBody JSON_stringify modelName request = Ok body
    /\ body !! "response_format" =
         match output_format request, declares_output model "json" with
         | Some format_json, true => Some (BResponseFormat "json_object")
         | Some format_text, true => Some (BResponseFormat "text")
         | _, _ => None
         end.
Proof.
  intros Hown Hmsgs Hversion Hformat.
  assert (Hin : In (mappedModelName (config_field version request)
                      (ref_version model) modelName)
                   (modelName :: versions (info model))).
  { destruct (own_version_gate _ _ modelName Hown (or_introl eq_refl))
      as (_ & _ & ->).
    unfold mappedModelName, or_else.
    destruct Hversion as [-> | (v & -> & Hv)]; [left; reflexivity|].
    destruct (string_truthy v); [right; exact Hv | left; reflexivity]. }
  destruct (own_version_gate _ _ _ Hown Hin) as (Hlist & Htext & _).
  unfold toOpenAiRequestBody, unstripped_body.
  rewrite Hown. cbn [bind]. rewrite Hmsgs. cbn [bind mbind option_bind].
  unfold negotiate_format. rewrite Hlist, Htext.
  destruct (output_format request) as [[]|]; try congruence;
    destruct (declares_output model "json"); cbn [bind];
    eexists; (split; [reflexivity|]); rewrite strip_fields_lookup;
    try rewrite lookup_insert_eq; try rewrite initial_body_response_format;
    reflexivity.
Qed.

(** X18. The builder throws [UnsupportedModel], with the name, exactly
    for a name that is no key of the registry and names no member of
    [Object.prototype], and then whatever the request holds. Its other
    exceptions are those of the messages ([UnmappableRole],
    [UnsupportedPart]) and of the format ([UnsupportedOutputFormat]);
    a [TypeError] is met only under a name inherited from
    [Object.prototype]. *)
Theorem builder_exceptions (modelName : string) (request : GenerateRequest) :
  (SUPPORTED_GPT_MODELS modelName = Missing ->
   toOpenAiRequestBody JSON_stringify modelName request
     = Throw (UnsupportedModel modelName))
  /\ (forall e,
        toOpenAiRequestBody JSON_stringify modelName request = Throw e ->
        (e = UnsupportedModel modelName /\ SUPPORTED_GPT_MODELS modelName = Missing)
        \/ (SUPPORTED_GPT_MODELS modelName <> Missing
            /\ (e = UnsupportedPart
                \/ (exists r, e = UnmappableRole r)
                \/ (exists f, output_format request = Some f
                               /\ e = UnsupportedOutputFormat (format_name f))
                \/ (e = TypeError /\ SUPPORTED_GPT_MODELS modelName = Inherited)))).
Proof.
  unfold toOpenAiRequestBody, unstripped_body. split.
  - intros ->. reflexivity.
  - intros e.
    destruct (SUPPORTED_GPT_MODELS modelName) as [m| |] eqn:Hlook; cbn [bind].
    3: { intros [= <-]. left. split; reflexivity. }
    all: unfold toOpenAiMessages;
      destruct (push_messages JSON_stringify _ _) as [msgs|e'] eqn:Hmsgs; cbn [bind].
    all: try (intros [= <-]; right; split; [discriminate|];
              destruct (push_messages_exception _ _ _ Hmsgs) as [->|Hrole];
              [left; reflexivity | right; left; exact Hrole]).
    all: destruct (negotiate_format _ _ _ _) as [body|e'] eqn:Hneg; cbn [bind];
      [discriminate|].
    all: intros [= <-]; right; split; [discriminate|].
    all: destruct (negotiate_format_exception _ _ _ _ _ Hneg) as [Hf | [-> Hnone]];
      [right; right; left; exact Hf|].
    + discriminate.
    + right. right. right. split; reflexivity.
Qed.

(** X19. The name of a member of [Object.prototype], such as [toString],
    is not rejected as an unsupported model: when the messages convert and
    no output format is requested, a body is built that names as its model
    the version override, if non-empty, and the name itself otherwise. *)
Theorem inherited_name_accepted (modelName : string) (request : GenerateRequest)
    (msgs : list ChatCompletionMessageParam) :
  In modelName Object_prototype_keys ->
  toOpenAiMessages JSON_stringify (messages request)
    (config_field visualDetailLevel request) = Ok msgs ->
  output_format request = None ->
  exists body,
    toOpenAiRequestBody JSON_stringify modelName request = Ok body
    /\ body !! "model" =
         Some (BString match config_field version request with
                       | Some (String c v) => String c v
                       | Some EmptyString | None => modelName
                       end).
Proof.
  intros Hin Hmsgs Hformat.
  assert (Hlook : SUPPORTED_GPT_MODELS modelName = Inherited).
  { cbn in Hin. repeat (destruct Hin as [<-|Hin]; [reflexivity|]). destruct Hin. }
  assert (Hname : string_truthy modelName = true).
  { apply registry_key_truthy. rewrite Hlook. discriminate. }
  unfold toOpenAiRequestBody, unstripped_body.
  rewrite Hlook. cbn [bind]. rewrite Hmsgs. cbn [bind mbind option_bind].
  unfold negotiate_format. rewrite Hformat. cbn [bind].
  eexists. split; [reflexivity|].
  rewrite strip_fields_lookup, initial_body_model.
  rewrite kept_truthy_string.
  - unfold mappedModelName, or_else.
    destruct (config_field version request) as [[|c v]|]; reflexivity.
  - unfold mappedModelName. apply or_else_truthy, or_else_truthy, Hname.
Qed.

End Body.

(** * Further properties of the runner and of the model definition *)

Section Running.

Variable JSON_parse : string -> option JsValue.
Variable JSON_stringify : JsValue -> option string.

Lemma fromOpenAiChunkChoice_outcome (choice : ChunkChoice) :
  (well_formed choice /\
   exists c, fromOpenAiChunkChoice JSON_parse choice false = Ok c
             /\ cd_index c = k_index choice)
  \/ (~ well_formed choice /\
      fromOpenAiChunkChoice JSON_parse choice false = Throw MalformedToolCall).
Proof.
  unfold well_formed, fromOpenAiChunkChoice, toolRequestParts_of.
  destruct (m_tool_calls (k_delta choice)) as [calls|].
  - destruct (map_fromOpenAiToolCall_outcome JSON_parse calls)
      as [(Hall & parts & -> & _) | (Hnot & ->)]; cbn [bind].
    + left. split; [intros ? [= <-]; exact Hall|].
      eexists. split; reflexivity.
    + right. split; [|reflexivity]. intros H. apply Hnot, H. reflexivity.
  - left. split; [discriminate|]. eexists. split; reflexivity.
Qed.

(** One chunk: the indices handed to the callback and how the feed ends. *)
Lemma forEach_choice_outcome (cs : list ChunkChoice)
    (sent : list GenerateResponseChunkData) :
  (Forall well_formed cs /\
   exists new, forEach_choice JSON_parse cs sent = ((sent ++ new)%list, Ok tt)
               /\ map chunk_index new = map k_index cs)
  \/ (~ Forall well_formed cs /\
      exists sent', forEach_choice JSON_parse cs sent = (sent', Throw MalformedToolCall)).
Proof.
  revert sent. induction cs as [|choice cs IH]; intros sent; cbn [forEach_choice].
  - left. split; [constructor|]. exists []. rewrite app_nil_r. split; reflexivity.
  - destruct (fromOpenAiChunkChoice_outcome choice)
      as [(Hwf & c & -> & Hindex) | (Hnot & ->)].
    + destruct (IH (sent ++ [{| chunk_index := cd_index c;
                                chunk_content := content (cd_message c) |}])%list)
        as [(Hall & new & -> & Hnew) | (Hnot & sent' & ->)].
      * left. split; [constructor; assumption|].
        exists ({| chunk_index := cd_index c;
                   chunk_content := content (cd_message c) |} :: new).
        rewrite <- app_assoc. split; [reflexivity|].
        cbn [map chunk_index]. rewrite Hindex, Hnew. reflexivity.
      * right. split; [intros H; apply Hnot; inversion H; assumption|].
        eexists. reflexivity.
    + right. split; [intros H; apply Hnot; inversion H; assumption|].
      eexists. reflexivity.
Qed.

Lemma for_await_outcome (chunks : list ChatCompletionChunk)
    (sent : list GenerateResponseChunkData) :
  (Forall well_formed (stream_choices chunks) /\
   exists new, for_await JSON_parse chunks sent = ((sent ++ new)%list, Ok tt)
               /\ map chunk_index new = map k_index (stream_choices chunks))
  \/ (~ Forall well_formed (stream_choices chunks) /\
      exists sent', for_await JSON_parse chunks sent = (sent', Throw MalformedToolCall)).
Proof.
  revert sent. induction chunks as [|chunk chunks IH]; intros sent; cbn [for_await].
  - left. split; [constructor|]. exists []. rewrite app_nil_r. split; reflexivity.
  - unfold stream_choices. cbn [map concat]. fold (stream_choices chunks).
    destruct (forEach_choice_outcome (default [] (chunk_choices chunk)) sent)
      as [(Hall1 & new1 & -> & Hnew1) | (Hnot & sent' & ->)].
    + destruct (IH (sent ++ new1)%list)
        as [(Hall & new & -> & Hnew) | (Hnot & sent' & ->)].
      * left. split; [apply Forall_app; split; assumption|].
        exists (new1 ++ new)%list. rewrite app_assoc. split; [reflexivity|].
        rewrite !map_app, Hnew1, Hnew. reflexivity.
      * right. split; [|eexists; reflexivity].
        intros H. apply Forall_app in H. apply Hnot, H.
    + right. split; [|eexists; reflexivity].
      intros H. apply Forall_app in H. apply Hnot, H.
Qed.

(** The choice at which the reduction of a list of choices throws. *)
Lemma map_fromOpenAiChoice_exception (cs : list Choice) (jsonMode : bool)
    (e : Exception) :
  map_result (fun c => fromOpenAiChoice JSON_parse c jsonMode) cs = Throw e ->
  exists choice, In choice cs /\ fromOpenAiChoice JSON_parse choice jsonMode = Throw e.
Proof.
  induction cs as [|c cs IH]; cbn [map_result]; [discriminate|].
  destruct (fromOpenAiChoice JSON_parse c jsonMode) as [cand|e'] eqn:Hc; cbn [bind].
  - destruct (map_result _ cs) as [cands|e'] eqn:Hcs; cbn [bind]; [discriminate|].
    intros [= ->]. destruct (IH eq_refl) as (choice & Hin & Hchoice).
    exists choice. split; [right; exact Hin | exact Hchoice].
  - intros [= <-]. exists c. split; [left; reflexivity | exact Hc].
Qed.

Lemma map_fromOpenAiChoice_candidates (cs : list Choice) (jsonMode : bool)
    (cands : list CandidateData) :
  map_result (fun c => fromOpenAiChoice JSON_parse c jsonMode) cs = Ok cands ->
  Forall2 (fun choice cand => fromOpenAiChoice JSON_parse choice jsonMode = Ok cand)
    cs cands.
Proof.
  revert cands. induction cs as [|c cs IH]; intros cands; cbn [map_result].
  - intros [= <-]. constructor.
  - destruct (fromOpenAiChoice JSON_parse c jsonMode) as [cand|e'] eqn:Hc; cbn [bind];
      [|discriminate].
    destruct (map_result _ cs) as [more|e'] eqn:Hcs; cbn [bind]; [|discriminate].
    intros [= <-]. constructor; [exact Hc | apply IH; reflexivity].
Qed.

Lemma toResponse_exception (request : GenerateRequest) (response : ChatCompletion)
    (e : Exception) :
  toResponse JSON_parse request response = Throw e ->
  e = MalformedToolCall
  \/ (e = SyntaxError /\ output_format request = Some format_json).
Proof.
  unfold toResponse.
  destruct (map_result _ (choices response)) as [cands|e'] eqn:Hmap; cbn [bind];
    [discriminate|].
  intros [= ->].
  destruct (map_fromOpenAiChoice_exception _ _ _ Hmap) as (choice & _ & Hchoice).
  destruct (fromOpenAiChoice_outcome JSON_parse choice
              match output_format request with
              | Some format_json => true
              | _ => false
              end)
    as [(? & ? & ? & _ & _ & _ & H)
       | [(? & _ & _ & H)
         | (_ & [(_ & H) | [(_ & ? & _ & H) | (Hmode & _ & H)]])]];
    rewrite H in Hchoice; try discriminate; injection Hchoice as <-.
  - left. reflexivity.
  - right. split; [reflexivity|].
    destruct (output_format request) as [[]|]; try discriminate. reflexivity.
Qed.

(** X20. Streaming does not change the result. When every tool call of
    the stream carries its function payload, the callback is called once
    per choice of the stream, in arrival order and with that choice's index,
    chunks without choices giving no call, and the runner then returns the
    reduction of the final completion, as the non-streaming call returns the
    reduction of the completion it is given. *)
Theorem streaming_result (name_ : string) (client : OpenAI)
    (request : GenerateRequest) (body : gmap string BodyValue) :
  toOpenAiRequestBody JSON_stringify name_ request = Ok body ->
  gptRunner JSON_parse JSON_stringify name_ client request false
    = ([], toResponse JSON_parse request (create client body))
  /\ (Forall well_formed
        (stream_choices (fst (stream client (<["stream" := BBool true]> body)))) ->
      snd (gptRunner JSON_parse JSON_stringify name_ client request true)
        = toResponse JSON_parse request
            (snd (stream client (<["stream" := BBool true]> body)))
      /\ map chunk_index
           (fst (gptRunner JSON_parse JSON_stringify name_ client request true))
         = map k_index
             (stream_choices (fst (stream client (<["stream" := BBool true]> body))))).
Proof.
  intros Hbody. unfold gptRunner. rewrite Hbody. split; [reflexivity|].
  destruct (stream client (<["stream" := BBool true]> body)) as [chunks final].
  cbn [fst snd]. intros Hwf.
  destruct (for_await_outcome chunks [])
    as [(_ & new & -> & Hnew) | (Hnot & _)]; [|contradiction].
  cbn [app fst snd]. split; [reflexivity | exact Hnew].
Qed.

(** X21. A tool call without its function payload anywhere in the stream
    ends the streaming call with [MalformedToolCall]: the final completion
    is not reduced, whatever it holds. *)
Theorem malformed_chunk_aborts (name_ : string) (client : OpenAI)
    (request : GenerateRequest) (body : gmap string BodyValue) :
  toOpenAiRequestBody JSON_stringify name_ request = Ok body ->
  ~ Forall well_formed
      (stream_choices (fst (stream client (<["stream" := BBool true]> body)))) ->
  snd (gptRunner JSON_parse JSON_stringify name_ client request true)
    = Throw MalformedToolCall.
Proof.
  intros Hbody Hnot. unfold gptRunner. rewrite Hbody.
  destruct (stream client (<["stream" := BBool true]> body)) as [chunks final].
  cbn [fst] in Hnot.
  destruct (for_await_outcome chunks [])
    as [(Hwf & _) | (_ & sent' & ->)]; [contradiction|].
  reflexivity.
Qed.

(** X22. The response of a completion has one candidate per choice, in
    order, each the reduction of its choice in the JSON mode the request
    asks for ([json] as output format, and no other); it carries the
    completion itself as [custom] and the token counts of its usage, all
    three unset when the completion has no usage. *)
Theorem response_of_completion (request : GenerateRequest)
    (response : ChatCompletion) (r : GenerateResponseData) :
  toResponse JSON_parse request response = Ok r ->
  Forall2 (fun choice cand =>
             fromOpenAiChoice JSON_parse choice
               match output_format request with
               | Some format_json => true
               | Some format_text | Some format_media | None => false
               end = Ok cand)
    (choices response) (response_candidates r)
  /\ response_custom r = response
  /\ match usage response with
     | Some u => response_usage r
                 = {| inputTokens := prompt_tokens u;
                      outputTokens := completion_tokens u;
                      totalTokens := total_tokens u |}
     | None => response_usage r
               = {| inputTokens := None; outputTokens := None; totalTokens := None |}
     end.
Proof.
  unfold toResponse.
  destruct (map_result _ (choices response)) as [cands|e] eqn:Hmap; cbn [bind];
    [|discriminate].
  intros [= <-]. cbn.
  split; [apply map_fromOpenAiChoice_candidates, Hmap|].
  split; [reflexivity|]. destruct (usage response); reflexivity.
Qed.

Lemma runner_raises (name_ : string) (client : OpenAI)
    (request : GenerateRequest) (streaming : bool) (e : Exception) :
  snd (gptRunner JSON_parse JSON_stringify name_ client request streaming) = Throw e ->
  toOpenAiRequestBody JSON_stringify name_ request = Throw e
  \/ e = MalformedToolCall
  \/ e = SyntaxError.
Proof.
  unfold gptRunner.
  destruct (toOpenAiRequestBody JSON_stringify name_ request) as [body|e'];
    [|cbn; intros [= ->]; left; reflexivity].
  destruct streaming.
  - destruct (stream client (<["stream" := BBool true]> body)) as [chunks final].
    destruct (for_await_outcome chunks [])
      as [(_ & new & -> & _) | (_ & sent' & ->)]; cbn [fst snd]; intros H; right.
    + destruct (toResponse_exception _ _ _ H) as [?|[? _]]; auto.
    + injection H as <-. left. reflexivity.
  - cbn [snd]. intros H. right.
    destruct (toResponse_exception _ _ _ H) as [?|[? _]]; auto.
Qed.

(** X23. Reducing a completion to the response throws in two cases
    only: [MalformedToolCall], when a tool call of one of its choices lacks
    its function payload, and [SyntaxError], and then the request's output
    format is [json]. So for a request that does not ask for [json], a
    completion whose tool calls all carry their payload always reduces. *)
Theorem response_exceptions (request : GenerateRequest) (response : ChatCompletion) :
  (forall e,
     toResponse JSON_parse request response = Throw e ->
     (e = MalformedToolCall /\ ~ Forall well_formed_choice (choices response))
     \/ (e = SyntaxError /\ output_format request = Some format_json))
  /\ (Forall well_formed_choice (choices response) ->
      output_format request <> Some format_json ->
      exists r, toResponse JSON_parse request response = Ok r).
Proof.
  unfold toResponse.
  set (jsonMode := match output_format request with
                   | Some format_json => true
                   | _ => false
                   end).
  split.
  - intros e.
    destruct (map_result _ (choices response)) as [cands|e'] eqn:Hmap; cbn [bind];
      [discriminate|].
    intros [= ->].
    destruct (map_fromOpenAiChoice_exception _ _ _ Hmap) as (choice & Hin & Hchoice).
    destruct (fromOpenAiChoice_outcome JSON_parse choice jsonMode)
      as [(? & ? & ? & _ & _ & _ & H)
         | [(calls & Hcalls & Hnot & H)
           | (_ & [(_ & H) | [(_ & ? & _ & H) | (Hmode & _ & H)]])]];
      rewrite H in Hchoice; try discriminate; injection Hchoice as <-.
    + left. split; [reflexivity|]. intros Hall.
      apply Hnot. rewrite Forall_forall in Hall. apply list_elem_of_In in Hin.
      exact (Hall choice Hin calls Hcalls).
    + right. split; [reflexivity|]. subst jsonMode.
      destruct (output_format request) as [[]|]; try discriminate. reflexivity.
  - intros Hall Hformat.
    assert (Hmode : jsonMode = false).
    { subst jsonMode. destruct (output_format request) as [[]|]; congruence. }
    rewrite Hmode.
    assert (Hmap : exists cands,
               map_result (fun c => fromOpenAiChoice JSON_parse c false)
                 (choices response) = Ok cands).
    { induction Hall as [|choice cs Hchoice _ IH]; [exists []; reflexivity|].
      destruct IH as (cands & Hcands). cbn [map_result].
      destruct (fromOpenAiChoice_outcome JSON_parse choice false)
        as [(? & ? & ? & _ & _ & _ & H)
           | [(calls & Hcalls & Hnot & _)
             | (_ & [(_ & H) | [(Hm & _) | (Hm & _)]])]];
        try discriminate; try (exfalso; apply Hnot, Hchoice, Hcalls).
      all: rewrite H; cbn [bind]; rewrite Hcands; cbn [bind];
        eexists; reflexivity. }
    destruct Hmap as (cands & ->). cbn [bind]. eexists. reflexivity.
Qed.

(** X24. [gptModel] throws [UnsupportedModel] exactly when the builder
    would, and otherwise defines a model named [openai/] followed by the
    given name, which for a key of the registry is the descriptor's own
    name, with the descriptor's info and [gptRunner] as its runner; a model
    so defined never fails with [UnsupportedModel] when run. *)
Theorem gptModel_defined (name_ : string) (client : OpenAI) :
  (SUPPORTED_GPT_MODELS name_ = Missing /\
   gptModel JSON_parse JSON_stringify name_ client = Throw (UnsupportedModel name_))
  \/ (SUPPORTED_GPT_MODELS name_ <> Missing /\
      exists action,
        gptModel JSON_parse JSON_stringify name_ client = Ok action
        /\ action_name action = "openai/" ++ name_
        /\ action_run action = gptRunner JSON_parse JSON_stringify name_ client
        /\ (forall model, SUPPORTED_GPT_MODELS name_ = Own model ->
              action_name action = name model
              /\ action_info action = Some (info model))
        /\ (forall request streaming unknown,
              snd (action_run action request streaming)
                <> Throw (UnsupportedModel unknown))).
Proof.
  assert (Hrun : SUPPORTED_GPT_MODELS name_ <> Missing ->
                 forall request streaming unknown,
                   snd (gptRunner JSON_parse JSON_stringify name_ client
                          request streaming) <> Throw (UnsupportedModel unknown)).
  { intros Hlook request streaming unknown H.
    destruct (runner_raises _ _ _ _ _ H) as [Hbuild | [Hbad | Hbad]];
      try discriminate.
    unfold toOpenAiRequestBody, unstripped_body in Hbuild.
    destruct (SUPPORTED_GPT_MODELS name_) as [m| |]; [| |congruence];
      cbn [bind] in Hbuild.
    all: unfold toOpenAiMessages in Hbuild;
      destruct (push_messages JSON_stringify _ _) as [msgs|e'] eqn:Hmsgs;
      cbn [bind] in Hbuild;
      [|injection Hbuild as ->;
        destruct (push_messages_exception _ _ _ _ Hmsgs) as [?|[? ?]]; discriminate].
    all: destruct (negotiate_format _ _ _ _) as [body|e'] eqn:Hneg;
      cbn [bind] in Hbuild; [discriminate|].
    all: injection Hbuild as ->;
      destruct (negotiate_format_exception _ _ _ _ _ Hneg) as [(? & _ & ?)|[? _]];
      discriminate. }
  unfold gptModel.
  destruct (SUPPORTED_GPT_MODELS name_) as [m| |] eqn:Hlook.
  - right. split; [discriminate|]. eexists. split; [reflexivity|].
    cbn [action_name action_run action_info].
    repeat split; try (apply Hrun; discriminate).
    + injection H as <-.
      destruct (registry_own _ _ Hlook)
        as [[-> ->]|[[-> ->]|[[-> ->]|[[-> ->]|[[-> ->]|[-> ->]]]]]]; reflexivity.
    + congruence.
  - right. split; [discriminate|]. eexists. split; [reflexivity|].
    cbn [action_name action_run action_info].
    repeat split; try discriminate. apply Hrun. discriminate.
  - left. split; reflexivity.
Qed.

End Running.

(** * The further properties at concrete inputs *)

Import Cases.

(** A built body, named, with what remains to show of it. *)
Ltac with_body b H :=
  match goal with
  | |- exists _, ?r = Ok _ /\ _ =>
      assert (H : exists x, r = Ok x) by returns_ok;
      destruct H as [b H]; exists b; split; [exact H|]
  end.

Lemma greeting_and_tool_results_convert :
  exists vendor,
    toOpenAiMessages JSON.stringify (greeting ++ [tool_results])%list None = Ok vendor
    /\ length vendor = 5%nat.
Proof.
  with_body vendor Hvendor.
  exact (proj2 (messages_convert_iff JSON.stringify (greeting ++ [tool_results])%list None)
           vendor Hvendor).
Defined.

Lemma unknown_role_comes_first :
  exists before m after,
    with_unknown_role = (before ++ m :: after)%list
    /\ Forall convertible before
    /\ ((~ known_role (role m) /\ UnmappableRole "developer" = UnmappableRole (role m))
        \/ (role m = "user" /\ ~ Forall has_text_or_media (content m)
            /\ UnmappableRole "developer" = UnsupportedPart)).
Proof.
  exact (messages_first_failure JSON.stringify with_unknown_role None
           (UnmappableRole "developer") eq_refl).
Defined.

Lemma tool_results_sent :
  exists vendor,
    toOpenAiMessages JSON.stringify [tool_results] None = Ok vendor
    /\ length vendor = 2%nat.
Proof.
  destruct (tool_message_responses JSON.stringify tool_results None eq_refl)
    as (vendor & Hvendor & Hall).
  exists vendor. split; [exact Hvendor|].
  symmetry. exact (Forall2_length _ _ _ Hall).
Defined.

Example tool_results_vendor :
  toOpenAiMessages JSON.stringify [tool_results] None
    = Ok [ ToolParam "call_0" (Str "42");
           ToolParam "" (Str ("{" ++ JSON.quoted "ok" ++ ":true}")) ].
Proof. reflexivity. Qed.

Lemma model_turn_sends_tool_call :
  exists calls,
    toOpenAiMessages JSON.stringify [model_turn] None
      = Ok [AssistantToolCallsParam calls]
    /\ length calls = 1%nat.
Proof.
  destruct (assistant_message_tool_calls JSON.stringify model_turn None eq_refl)
    as [[Hnone _] | (_ & calls & Hcalls & Hall)]; [discriminate Hnone|].
  exists calls. split; [exact Hcalls|].
  symmetry. exact (Forall2_length _ _ _ Hall).
Defined.

Lemma user_turn_items :
  exists items,
    toOpenAiMessages JSON.stringify [user_turn] (Some detail_low) = Ok [UserParam items]
    /\ length items = 3%nat.
Proof.
  destruct (user_message_items JSON.stringify user_turn (Some detail_low) eq_refl)
    as (items & Hitems & Hall).
  - constructor; [left; reflexivity|]. constructor; [right; discriminate|].
    constructor; [left; reflexivity|]. constructor.
  - exists items. split; [exact Hitems|].
    symmetry. exact (Forall2_length _ _ _ Hall).
Defined.

Example user_turn_vendor :
  toOpenAiMessages JSON.stringify [user_turn] (Some detail_low)
    = Ok [UserParam [ ContentText "What is this?";
                      ContentImageUrl "https://example.com/cat.png" detail_low;
                      ContentText "A caption" ]].
Proof. reflexivity. Qed.

Lemma lookup_request_round_trip :
  fromOpenAiChoice JSON.parse
    {| c_index := 0;
       c_finish_reason := Some vendor_tool_calls;
       c_message := {| m_content := Null;
                       m_tool_calls :=
                         Some (map (toToolCall JSON.stringify) [lookup_request]) |} |}
    true
  = Ok (candidate 0 finish_stop
          [toolRequestPart {| tr_name := Some "lookup"; tr_ref := Some "";
                              tr_input := JsObject [("x", JsNumber one)] |}]).
Proof.
  apply (tool_requests_round_trip JSON.parse JSON.stringify [lookup_request] 0
           (Some vendor_tool_calls) Null true).
  - discriminate.
  - constructor; [|constructor]. vm_compute. split; [discriminate|reflexivity].
Defined.

Lemma tool_call_choice_in_json_mode :
  fromOpenAiChoice JSON.parse
    (choice_of (Some vendor_tool_calls) (Str "not json") (Some [tool_call (Str x_is_1)]))
    true
  = Ok (candidate 0 finish_stop
          [toolRequestPart {| tr_name := Some "lookup"; tr_ref := Some "call_0";
                              tr_input := JsObject [("x", JsNumber one)] |}]).
Proof.
  destruct (choice_tool_calls_only JSON.parse (tool_call (Str x_is_1)) [])
    as (parts & Hparts & Hchoice).
  - constructor; [discriminate|constructor].
  - change (choice_of (Some vendor_tool_calls) (Str "not json")
              (Some [tool_call (Str x_is_1)]))
      with {| c_index := 0;
              c_finish_reason := Some vendor_tool_calls;
              c_message := {| m_content := Str "not json";
                              m_tool_calls := Some [tool_call (Str x_is_1)] |} |}.
    rewrite Hchoice.
    inversion Hparts as [|? part ? rest (f & Hf & Hpart) Hrest]; subst.
    inversion Hrest; subst. injection Hf as <-. reflexivity.
Defined.

Lemma reduced_choice_shape :
  exists c,
    fromOpenAiChoice JSON.parse (choice_of (Some vendor_stop) (Str "Hi") (Some [])) false
      = Ok c
    /\ cd_index c = 0 /\ role (cd_message c) = "model" /\ content (cd_message c) <> [].
Proof.
  with_body c Hc.
  exact (proj1 (candidate_shape JSON.parse
                  (choice_of (Some vendor_stop) (Str "Hi") (Some []))
                  (chunk_choice_of None (Str "Hi") (Some [])) false c) Hc).
Defined.

Lemma not_json_content_throws :
  (MalformedToolCall = SyntaxError
   /\ ~ well_formed_choice (choice_of (Some vendor_stop) (Str "not json") None))
  \/ (SyntaxError = SyntaxError /\ true = true
      /\ (m_tool_calls (c_message (choice_of (Some vendor_stop) (Str "not json") None))
            = None
          \/ m_tool_calls (c_message (choice_of (Some vendor_stop) (Str "not json") None))
               = Some [])
      /\ JSON.parse
           (to_text (m_content
                       (c_message (choice_of (Some vendor_stop) (Str "not json") None))))
         = None).
Proof.
  destruct (proj1 (reduction_exceptions JSON.parse
                     (choice_of (Some vendor_stop) (Str "not json") None) true)
              SyntaxError eq_refl) as [[H _] | H].
  - discriminate H.
  - right. exact H.
Defined.

Lemma tooled_body_names_model :
  exists body,
    toOpenAiRequestBody JSON.stringify "gpt-4-vision" tooled_request = Ok body
    /\ exists version_, body !! "model" = Some (BString version_) /\ version_ <> "".
Proof.
  with_body body Hbody.
  exact (body_names_model JSON.stringify "gpt-4-vision" tooled_request body Hbody).
Defined.

Lemma tooled_body_has_no_stream :
  exists body,
    toOpenAiRequestBody JSON.stringify "gpt-4-vision" tooled_request = Ok body
    /\ body !! "stream" = None.
Proof.
  with_body body Hbody.
  exact (proj2 (body_keys_known JSON.stringify "gpt-4-vision" tooled_request body
                  "stream" Hbody)).
Defined.

Lemma tooled_body_options :
  exists body,
    toOpenAiRequestBody JSON.stringify "gpt-4-vision" tooled_request = Ok body
    /\ body !! "temperature" = Some (BNumber {| mant := 7; expo := -1 |})
    /\ body !! "max_tokens" = Some (BNumber {| mant := 256; expo := 0 |})
    /\ body !! "top_p" = None
    /\ body !! "stop" = Some (BStrings ["END"])
    /\ body !! "logprobs" = Some (BBool true)
    /\ body !! "top_logprobs" = Some (BNumber {| mant := 2; expo := 0 |})
    /\ body !! "n" = Some (BNumber {| mant := 2; expo := 0 |}).
Proof.
  with_body body Hbody.
  destruct (options_under_vendor_names JSON.stringify "gpt-4-vision" tooled_request
              body Hbody)
    as (Ht & Hm & Hp & Hs & _ & _ & Hl & _ & _ & Htl & _ & Hn).
  repeat split; assumption.
Defined.

(** [gpt-4-vision] declares no tool support; the tool is sent all the
    same. *)
Lemma tool_sent_to_gpt4_vision :
  exists body,
    toOpenAiRequestBody JSON.stringify "gpt-4-vision" tooled_request = Ok body
    /\ body !! "tools"
       = Some (BTools [ {| tool_name := "lookup";
                           tool_parameters := JsObject [("type", JsString "object")] |} ]).
Proof.
  with_body body Hbody.
  exact (tools_reach_body JSON.stringify "gpt-4-vision" tooled_request body Hbody).
Defined.

Lemma json_directive_for_gpt4o :
  exists body,
    toOpenAiRequestBody JSON.stringify "gpt-4o"
      (request_with greeting None (Some format_json)) = Ok body
    /\ body !! "response_format" = Some (BResponseFormat "json_object").
Proof.
  with_body body Hbody.
  assert (Hmodel : body !! "model" = Some (BString "gpt-4o")).
  { destruct (built_body_fields JSON.stringify _ _ _ Hbody)
      as (model & msgs & Hlook & _ & Hkeys & _).
    rewrite (Hkeys "model") by discriminate. rewrite initial_body_model.
    change (model = Some gpt4o) in Hlook. subst model. reflexivity. }
  exact (directive_follows_model JSON.stringify "gpt-4o"
           (request_with greeting None (Some format_json)) body "gpt-4o" Hbody Hmodel).
Defined.

Lemma gpt4o_dated_version_json :
  exists body,
    toOpenAiRequestBody JSON.stringify "gpt-4o"
      (request_with greeting (Some "gpt-4o-2024-05-13") (Some format_json)) = Ok body
    /\ body !! "response_format" = Some (BResponseFormat "json_object").
Proof.
  destruct (toOpenAiMessages JSON.stringify greeting None) as [msgs|e] eqn:Hmsgs;
    [|discriminate].
  exact (own_versions_accept_formats JSON.stringify "gpt-4o" gpt4o
           (request_with greeting (Some "gpt-4o-2024-05-13") (Some format_json)) msgs
           eq_refl Hmsgs
           (or_intror (ex_intro _ "gpt-4o-2024-05-13"
                         (conj eq_refl (or_intror (or_introl eq_refl)))))
           ltac:(discriminate)).
Defined.

(** No registry entry is named [gpt-5]: the builder refuses it before
    looking at the request. *)
Lemma gpt5_unsupported :
  toOpenAiRequestBody JSON.stringify "gpt-5" (request_with empty_text None None)
    = Throw (UnsupportedModel "gpt-5").
Proof.
  exact (proj1 (builder_exceptions JSON.stringify "gpt-5"
                  (request_with empty_text None None)) eq_refl).
Defined.

Lemma toString_accepted :
  exists body,
    toOpenAiRequestBody JSON.stringify "toString" (request_with greeting None None)
      = Ok body
    /\ body !! "model" = Some (BString "toString").
Proof.
  destruct (toOpenAiMessages JSON.stringify greeting None) as [msgs|e] eqn:Hmsgs;
    [|discriminate].
  refine (inherited_name_accepted JSON.stringify "toString"
            (request_with greeting None None) msgs _ Hmsgs eq_refl).
  cbn. tauto.
Defined.

Lemma fragments_streamed_then_reduced :
  snd (gptRunner JSON.parse JSON.stringify "gpt-4o" client
         (request_with greeting None (Some format_json)) true)
    = toResponse JSON.parse (request_with greeting None (Some format_json)) completion
  /\ map chunk_index
       (fst (gptRunner JSON.parse JSON.stringify "gpt-4o" client
               (request_with greeting None (Some format_json)) true))
     = [0; 0].
Proof.
  assert (Hbody : exists body,
             toOpenAiRequestBody JSON.stringify "gpt-4o"
               (request_with greeting None (Some format_json)) = Ok body)
    by returns_ok.
  destruct Hbody as [body Hbody].
  apply (proj2 (streaming_result JSON.parse JSON.stringify "gpt-4o" client
                  (request_with greeting None (Some format_json)) body Hbody)).
  repeat constructor; intros calls H; discriminate.
Defined.

Lemma broken_stream_aborts :
  snd (gptRunner JSON.parse JSON.stringify "gpt-4o" broken_client
         (request_with greeting None None) true)
    = Throw MalformedToolCall.
Proof.
  assert (Hbody : exists body,
             toOpenAiRequestBody JSON.stringify "gpt-4o"
               (request_with greeting None None) = Ok body)
    by returns_ok.
  destruct Hbody as [body Hbody].
  apply (malformed_chunk_aborts JSON.parse JSON.stringify "gpt-4o" broken_client
           (request_with greeting None None) body Hbody).
  intros Hall. cbn in Hall.
  inversion Hall as [|? ? _ Hrest]; subst.
  inversion Hrest as [|? ? Hbare _]; subst.
  specialize (Hbare _ eq_refl).
  inversion Hbare as [|? ? Hfunction _]; subst.
  apply Hfunction. reflexivity.
Defined.

Example broken_stream_run :
  gptRunner JSON.parse JSON.stringify "gpt-4o" broken_client
    (request_with greeting None None) true
  = ([ {| chunk_index := 0; chunk_content := [textPart (Str "Hi")] |} ],
     Throw MalformedToolCall).
Proof. vm_compute. reflexivity. Qed.

Lemma completion_response :
  exists r,
    toResponse JSON.parse (request_with greeting None (Some format_text)) completion
      = Ok r
    /\ response_custom r = completion
    /\ response_usage r
       = {| inputTokens := None; outputTokens := None; totalTokens := None |}
    /\ length (response_candidates r) = 1%nat.
Proof.
  with_body r Hr.
  destruct (response_of_completion JSON.parse
              (request_with greeting None (Some format_text)) completion r Hr)
    as (Hall & Hcustom & Husage).
  repeat split; [exact Hcustom | exact Husage |].
  symmetry. exact (Forall2_length _ _ _ Hall).
Defined.

(** A completion whose first choice lists a tool call without function
    payload does not reduce, whatever the request asks for. *)
Lemma bare_call_completion_throws :
  (MalformedToolCall = MalformedToolCall
   /\ ~ Forall well_formed_choice
         [choice_of (Some vendor_tool_calls) Null (Some [bare_tool_call])])
  \/ (MalformedToolCall = SyntaxError
      /\ output_format (request_with greeting None (Some format_text))
         = Some format_json).
Proof.
  exact (proj1 (response_exceptions JSON.parse
                  (request_with greeting None (Some format_text))
                  {| choices := [choice_of (Some vendor_tool_calls) Null
                                   (Some [bare_tool_call])];
                     usage := None |})
           MalformedToolCall eq_refl).
Defined.
